(** * FlexGet: the [content_filter] and [make_rss] plugins

    A shallow embedding of
    - [flexget/plugins/filter/content_filter.py] (module [ContentFilter]) and
    - [flexget/plugins/output/rss.py]            (module [MakeRss]),
    followed by the properties of the two plugins.

    Conventions of the embedding.
    - A Python [dict] whose keys are fixed by the plugin is a record; a key that
      may be missing is an [option] field ([None] = the key is not in the dict).
    - A Python value that is "a string or [False]" is an [option string];
      its truth value is computed by [truthy_mask] (the empty string is false).
    - Naive [datetime] values are integers, the microseconds since
      [datetime.min]; a [timedelta] of [d] days is [d * usec_per_day]; date
      arithmetic that leaves the range of [datetime] raises [OverflowError].
    - Exceptions are explicit: a call returns [Return w] or [Raise e w].
    - Library functions whose code is not part of the plugins ([fnmatch],
      the templating functions, [open], [write_xml], [expanduser], the clock)
      are parameters of the model. *)

From Stdlib Require Import List String Ascii ZArith Bool Arith Lia.
From Stdlib Require Import Permutation Sorted.
Import ListNotations.
Open Scope string_scope.

(* ================================================================== *)
(** * Python helpers shared by both plugins *)
(* ================================================================== *)

(** Truth value of a list ([bool(l)]): a list is true when it is not empty. *)
Definition truthy_list {A : Type} (l : list A) : bool :=
  match l with
  | [] => false
  | _ :: _ => true
  end.

(** Truth value of a string ([bool(s)]): a string is true when it is not empty. *)
Definition truthy_str (s : string) : bool :=
  match s with
  | EmptyString => false
  | String _ _ => true
  end.

(** Shell-style matching of a name against a pattern, for patterns built
    from [*], [?] and ordinary characters: what [fnmatch.fnmatch] computes on
    POSIX for a pattern without a bracket class.  It is used to run the
    plugins on concrete file lists; the general theorems are stated for an
    arbitrary matcher. *)
Fixpoint glob (pat : string) : string -> bool :=
  match pat with
  | EmptyString =>
      fun name => match name with EmptyString => true | String _ _ => false end
  | String c pat' =>
      if Ascii.eqb c "*" then
        fix star (name : string) : bool :=
          glob pat' name
          || match name with
             | EmptyString => false
             | String _ name' => star name'
             end
      else if Ascii.eqb c "?" then
        fun name =>
          match name with
          | EmptyString => false
          | String _ name' => glob pat' name'
          end
      else
        fun name =>
          match name with
          | EmptyString => false
          | String d name' => Ascii.eqb c d && glob pat' name'
          end
  end.

(** [fnmatch(name, pat)] with the arguments in Python's order. *)
Definition fnmatch_glob (name pat : string) : bool := glob pat name.

(* ================================================================== *)
(** * content_filter.py *)
(* ================================================================== *)

Module ContentFilter.

(** One item of [torrent.get_filelist()]. *)
Record TorrentFile := { path : string; name : string }.

(** [entry.reject(reason, remember=...)]. *)
Record Rejection := { reason : string; remember : bool }.

(** The fields of an entry the plugin reads or writes.  [torrent] and
    [content_files] are keys that may be missing. *)
Record Entry := {
  title : string;
  torrent : option (list TorrentFile);
  content_files : option (list string);
  rejected : option Rejection
}.

(** A value of the keys [require], [require_all], [reject] as the validator
    accepts it: a text or a list of texts. *)
Inductive MaskValue :=
| Text (s : string)
| Masks (l : list string).

(** [task.config['content_filter']] as written by the user. *)
Record RawConfig := {
  raw_require : option MaskValue;
  raw_require_all : option MaskValue;
  raw_reject : option MaskValue;
  raw_strict : option bool
}.

(** The config after [get_config]: every mask key present holds a list. *)
Record Config := {
  require : option (list string);
  require_all : option (list string);
  reject : option (list string);
  strict : option bool
}.

Definition normalize (v : option MaskValue) : option (list string) :=
  match v with
  | None => None
  | Some (Text s) => Some [s]
  | Some (Masks l) => Some l
  end.

(** [get_config]: a text under a mask key is wrapped into a one-element list. *)
Definition get_config (c : RawConfig) : Config :=
  {| require := normalize (raw_require c);
     require_all := normalize (raw_require_all c);
     reject := normalize (raw_reject c);
     strict := raw_strict c |}.

(** [config.get(key)] used as a condition: a missing key gives [None],
    which is false; a list is true when it is not empty. *)
Definition truthy_key (v : option (list string)) : bool :=
  match v with
  | None => false
  | Some l => truthy_list l
  end.

(** [config[key]] after [config.get(key)] was true. *)
Definition key_masks (v : option (list string)) : list string :=
  match v with
  | None => []
  | Some l => l
  end.

Definition truthy_flag (v : option bool) : bool :=
  match v with
  | None => false
  | Some b => b
  end.

(** Truth value of the result of [matching_mask]: [False] and the empty
    string are false. *)
Definition truthy_mask (r : option string) : bool :=
  match r with
  | None => false
  | Some m => truthy_str m
  end.

(** [entry.reject(reason, remember=True)]. *)
Definition entry_reject (e : Entry) (why : string) : Entry :=
  {| title := title e;
     torrent := torrent e;
     content_files := content_files e;
     rejected := Some {| reason := why; remember := true |} |}.

Definition ends_with_slash (s : string) : bool :=
  match String.length s with
  | O => false
  | S n => match String.get n s with
           | Some c => Ascii.eqb c "/"
           | None => false
           end
  end.

Definition starts_with_slash (s : string) : bool :=
  match s with
  | String c _ => Ascii.eqb c "/"
  | EmptyString => false
  end.

(** [posixpath.join(a, b)]. *)
Definition posixpath_join (a b : string) : string :=
  if starts_with_slash b then b
  else if negb (truthy_str a) || ends_with_slash a then a ++ b
  else a ++ "/" ++ b.

(** [parse_torrent_files]: when the entry has a torrent with at least one
    file, [content_files] is set to the joined paths. *)
Definition parse_torrent_files (e : Entry) : Entry :=
  match torrent e with
  | None => e
  | Some filelist =>
      let files := map (fun item => posixpath_join (path item) (name item)) filelist in
      if truthy_list files then
        {| title := title e;
           torrent := torrent e;
           content_files := Some files;
           rejected := rejected e |}
      else e
  end.

Section Filter.

(** [fnmatch.fnmatch(file, mask)]. *)
Variable fnmatch : string -> string -> bool.

(** The inner loop of [matching_mask]: the first mask the file matches. *)
Fixpoint first_mask (file : string) (masks : list string) : option string :=
  match masks with
  | [] => None
  | mask :: masks' =>
      if fnmatch file mask then Some mask else first_mask file masks'
  end.

(** [matching_mask(files, masks)]: files in the outer loop, masks in the
    inner loop, the mask of the first hit is returned; [None] is [False]. *)
Fixpoint matching_mask (files masks : list string) : option string :=
  match files with
  | [] => None
  | file :: files' =>
      match first_mask file masks with
      | Some mask => Some mask
      | None => matching_mask files' masks
      end
  end.

(** The inner loop of the [require_all] count. *)
Fixpoint count_masks (file : string) (masks : list string) : nat :=
  match masks with
  | [] => 0
  | mask :: masks' =>
      (if fnmatch file mask then 1 else 0) + count_masks file masks'
  end.

(** [matches] after the two loops of the [require_all] block: the number of
    (file, mask) pairs that match. *)
Fixpoint count_matches (files masks : list string) : nat :=
  match files with
  | [] => 0
  | file :: files' => count_masks file masks + count_matches files' masks
  end.

Definition reason_require : string := "does not have any of the required filetypes".
Definition reason_require_all : string := "does not have all of the required filetypes".
Definition reason_banned (mask : string) : string := "has banned file " ++ mask.
Definition reason_strict : string := "no content files parsed for entry".

(** [process_entry]: the entry after the call and the returned flag
    ([True] when the entry was rejected; the implicit [None] is [false]). *)
Definition process_entry (raw : RawConfig) (e : Entry) : Entry * bool :=
  let config := get_config raw in
  match content_files e with
  | None => (e, false)
  | Some files =>
      if truthy_key (require config)
         && negb (truthy_mask (matching_mask files (key_masks (require config))))
      then (entry_reject e reason_require, true)
      else if truthy_key (require_all config)
              && negb (Nat.eqb (count_matches files (key_masks (require_all config)))
                                (List.length (key_masks (require_all config))))
      then (entry_reject e reason_require_all, true)
      else if truthy_key (reject config) then
        let mask := matching_mask files (key_masks (reject config)) in
        match mask with
        | Some m =>
            if truthy_str m then (entry_reject e (reason_banned m), true)
            else (e, false)
        | None => (e, false)
        end
      else (e, false)
  end.

(** The body of the loop of [on_task_modify] for one accepted entry: the
    entry afterwards and whether [task.rerun()] was called. *)
Definition modify_entry (raw : RawConfig) (e : Entry) : Entry * bool :=
  let config := get_config raw in
  let e1 := parse_torrent_files e in
  let '(e2, was_rejected) := process_entry raw e1 in
  if was_rejected then (e2, true)
  else
    match content_files e2 with
    | None =>
        if truthy_flag (strict config)
        then (entry_reject e2 reason_strict, true)
        else (e2, false)
    | Some _ => (e2, false)
    end.

(** [on_task_modify]: every accepted entry is processed in turn; the result
    is the entries afterwards and whether a rerun was requested. *)
Fixpoint on_task_modify (raw : RawConfig) (accepted : list Entry) (rerun : bool)
  : list Entry * bool :=
  match accepted with
  | [] => ([], rerun)
  | e :: rest =>
      let '(e', r) := modify_entry raw e in
      let '(rest', rerun') := on_task_modify raw rest (rerun || r) in
      (e' :: rest', rerun')
  end.

End Filter.

End ContentFilter.

(* ================================================================== *)
(** * rss.py *)
(* ================================================================== *)

Module MakeRss.

Open Scope Z_scope.

(** A [datetime.timedelta(days=1)] in microseconds. *)
Definition usec_per_day : Z := 86400000000.

(** The exception classes the plugin raises or handles.  A constructor
    stands for the class and its subclasses, as an [except] clause sees it. *)
Inductive exn :=
| PluginWarning (msg : string)
| RenderError
| LookupError
| IOError
| OverflowError
| OtherError (cls : string).

(** The result of a call into a collaborator that may raise. *)
Inductive result (A : Type) :=
| Ok (a : A)
| Err (e : exn).
Arguments Ok {A} a.
Arguments Err {A} e.

(** The result of a plugin handler: it returns, or an exception leaves it;
    [w] is the state at that point. *)
Inductive outcome (W : Type) :=
| Return (w : W)
| Raise (e : exn) (w : W).
Arguments Return {W} w.
Arguments Raise {W} e w.

(** A row of the table [make_rss] (class [RSSEntry]). *)
Record RSSEntry := {
  id : Z;
  title : string;
  description : string;
  link : option string;
  rsslink : option string;
  file : string;
  published : Z
}.

(** An accepted entry of a task: its title, which every entry has, and its
    other text fields. *)
Record Entry := {
  entry_title : string;
  fields : list (string * string)
}.

Fixpoint assoc (k : string) (l : list (string * string)) : option string :=
  match l with
  | [] => None
  | (k', v) :: l' => if String.eqb k k' then Some v else assoc k l'
  end.

(** [entry[field]] guarded by [field in entry]. *)
Definition entry_get (e : Entry) (field : string) : option string :=
  if String.eqb field "title" then Some (entry_title e) else assoc field (fields e).

(** The dict form of [task.config['make_rss']]; only [file] is required. *)
Record ConfigDict := {
  cfg_file : string;
  cfg_days : option Z;
  cfg_items : option Z;
  cfg_history : option bool;
  cfg_rsslink : option string;
  cfg_encoding : option string;
  cfg_title : option string;
  cfg_link : option (list string)
}.

(** [task.config['make_rss']]: a text (the file) or a dict. *)
Inductive RawConfig :=
| ConfigText (f : string)
| ConfigKeys (d : ConfigDict).

(** The config after [get_config]. *)
Record Config := {
  config_file : string;
  days : Z;
  items : Z;
  history : bool;
  config_rsslink : option string;
  encoding : string;
  config_link : list string;
  config_title : string;
  template : string
}.

Definition setdefault {A : Type} (v : option A) (d : A) : A :=
  match v with
  | Some a => a
  | None => d
  end.

(** [get_config]: defaults are filled in and [url] is appended to the link
    preference list.  The dict of the task is updated in place; here each call
    works on the config it is given, so a later call on the same task is a
    call on a config whose [link] list already ends with [url]. *)
Definition get_config (raw : RawConfig) : Config :=
  let d := match raw with
           | ConfigText f =>
               {| cfg_file := f; cfg_days := None; cfg_items := None;
                  cfg_history := None; cfg_rsslink := None; cfg_encoding := None;
                  cfg_title := None; cfg_link := None |}
           | ConfigKeys d => d
           end in
  {| config_file := cfg_file d;
     days := setdefault (cfg_days d) 7;
     items := setdefault (cfg_items d) (-1);
     history := setdefault (cfg_history d) true;
     config_rsslink := cfg_rsslink d;
     encoding := setdefault (cfg_encoding d) "iso-8859-1"%string;
     config_link := setdefault (cfg_link d) ["imdb_url"%string; "input_url"%string]
                    ++ ["url"%string];
     config_title := setdefault (cfg_title d) "{{title}} (from {{task}})"%string;
     template := "default"%string |}.

(** [PyRSS2Gen.RSSItem]. *)
Record RSSItem := {
  item_title : string;
  item_description : string;
  item_link : option string;
  pubDate : Z
}.

(** [PyRSS2Gen.RSS2]: the feed document. *)
Record RSS2 := {
  rss_title : string;
  rss_link : string;
  rss_description : string;
  lastBuildDate : Z;
  rss_items : list RSSItem
}.

(** What happens to the destination medium. *)
Inductive IOEvent :=
| Opened (fn : string)                             (* open(fn, 'w') succeeded *)
| Wrote (fn : string) (enc : string) (doc : RSS2). (* write_xml completed *)

(** Calls to the logger. *)
Inductive LogRecord :=
| LogDebug (msg : string)
| LogTrace (msg : string)
| LogVerbose (msg : string)
| LogCritical (msg : string)
| LogErrorRendering (e : Entry).

(** The state the handlers act on: the table [make_rss], the keys of
    [self.written], the effects on the medium and the log. *)
Record World := {
  db : list RSSEntry;
  written : list string;
  trace : list IOEvent;
  log : list LogRecord
}.

(** What the handlers get from outside the plugin. *)
Record Env := {
  rss2gen : bool;                 (* the import of PyRSS2Gen succeeded *)
  opt_test : bool;                (* task.manager.options.test *)
  opt_learn : bool;               (* task.manager.options.learn *)
  schema_default : Z;             (* utcnow() evaluated in the body of class RSSEntry *)
  entry_render : Entry -> string -> result string;
                                  (* entry.render(template) *)
  render_description : string -> Entry -> result string;
                                  (* render_from_entry(get_template(name, 'rss'), entry) *)
  expanduser : string -> string;  (* os.path.expanduser *)
  open_w : string -> option exn;  (* open(fn, 'w'): None when it succeeds *)
  write_xml : string -> string -> RSS2 -> option exn;
                                  (* rss.write_xml(file, encoding=...) *)
  today : nat -> Z;               (* the k-th reading of datetime.today() *)
  utcnow : Z                      (* datetime.utcnow() for lastBuildDate *)
}.

Definition set_db (w : World) (d : list RSSEntry) : World :=
  {| db := d; written := written w; trace := trace w; log := log w |}.

Definition add_log (w : World) (r : LogRecord) : World :=
  {| db := db w; written := written w; trace := trace w; log := log w ++ [r] |}.

Definition add_event (w : World) (ev : IOEvent) : World :=
  {| db := db w; written := written w; trace := trace w ++ [ev]; log := log w |}.

(** [self.written[key] = True]. *)
Definition mark_written (w : World) (key : string) : World :=
  {| db := db w; written := key :: written w; trace := trace w; log := log w |}.

(** [key in self.written]. *)
Definition is_written (w : World) (key : string) : bool :=
  existsb (String.eqb key) (written w).

(** ** The table *)

(** [query(RSSEntry).filter(RSSEntry.file == f)]. *)
Definition filter_file (f : string) (rows : list RSSEntry) : list RSSEntry :=
  filter (fun r => String.eqb (file r) f) rows.

(** Insertion into a list that is ordered by [published], newest first; the
    row goes before the first row that is not newer. *)
Fixpoint insert_desc (r : RSSEntry) (l : list RSSEntry) : list RSSEntry :=
  match l with
  | [] => [r]
  | x :: l' =>
      if published x <=? published r then r :: x :: l'
      else x :: insert_desc r l'
  end.

(** [order_by(RSSEntry.published.desc())].  Rows with equal timestamps stay
    in table order (the database leaves their order open). *)
Definition order_by_published_desc (rows : list RSSEntry) : list RSSEntry :=
  fold_right insert_desc [] rows.

(** [session.delete(item)]: the row with the item's primary key goes. *)
Definition session_delete (item : RSSEntry) (rows : list RSSEntry) : list RSSEntry :=
  filter (fun r => negb (id r =? id item)) rows.

(** The primary key given to a new row: one more than the largest in use. *)
Definition next_id (rows : list RSSEntry) : Z :=
  1 + fold_right (fun r m => Z.max (id r) m) 0 rows.

(** [session.add(rss)] for a row whose [id] and [published] were not
    assigned: the key is generated and [published] gets the column default. *)
Definition session_add (env : Env) (t d : string) (l : option string) (f : string)
    (rows : list RSSEntry) : list RSSEntry :=
  rows ++ [{| id := next_id rows; title := t; description := d; link := l;
              rsslink := None; file := f; published := schema_default env |}].

(** ** on_task_exit *)

(** The loop over [config['link']]: the first field the entry has. *)
Fixpoint select_link (e : Entry) (names : list string) : option string :=
  match names with
  | [] => None
  | field :: names' =>
      match entry_get e field with
      | Some v => Some v
      | None => select_link e names'
      end
  end.

Definition render_error_suffix : string := " - (Render Error)".

(** The loop over [task.accepted] that saves the entries. *)
Fixpoint save_entries (env : Env) (config : Config) (accepted : list Entry)
    (w : World) : outcome World :=
  match accepted with
  | [] => Return w
  | entry :: rest =>
      match entry_render env entry (config_title config) with
      | Err e => Raise e w
      | Ok t =>
          let l := select_link entry (config_link config) in
          let '(d, w1) :=
            match render_description env (template config) entry with
            | Ok d => (d, w)
            | Err _ => ((entry_title entry ++ render_error_suffix)%string,
                        add_log w (LogErrorRendering entry))
            end in
          let w2 := add_log w1 (LogDebug ("Saving " ++ entry_title entry
                                          ++ " into rss database")%string) in
          save_entries env config rest
            (set_db w2 (session_add env t d l (config_file config) (db w2)))
      end
  end.

(** The table after the loop that empties the backlog of the file when
    history is off. *)
Definition clear_history (f : string) (rows : list RSSEntry) : list RSSEntry :=
  fold_left (fun acc item => session_delete item acc) (filter_file f rows) rows.

(** The DELETEs of the rows marked with [session.delete], as the session
    sends them. *)
Definition flush_deletes (stale : list RSSEntry) (w : World) : World :=
  set_db w (fold_left (fun acc item => session_delete item acc) stale (db w)).

(** With history off the rows of the file are marked for deletion before the
    entries are saved.  The session sends the INSERTs of the saved rows before
    the DELETEs of the marked rows, so the new rows get their keys while the
    marked rows are still in the table. *)
Definition on_task_exit (env : Env) (raw : RawConfig) (accepted : list Entry)
    (w : World) : outcome World :=
  if negb (rss2gen env) then
    Raise (PluginWarning "plugin make_rss requires PyRSS2Gen library.") w
  else
    let config := get_config raw in
    if opt_test env then Return w
    else if negb (history config) then
      let stale := filter_file (config_file config) (db w) in
      match save_entries env config accepted
              (add_log w (LogDebug "disabling history")) with
      | Return w' => Return (flush_deletes stale w')
      | Raise e w' => Raise e (flush_deletes stale w')
      end
    else save_entries env config accepted w.

(** ** on_process_end *)

Definition make_item (r : RSSEntry) : RSSItem :=
  {| item_title := title r;
     item_description := description r;
     item_link := link r;
     pubDate := published r |}.

(** The state of the loop "make items". *)
Record Loop := {
  lp_items : list RSSItem;     (* rss_items *)
  lp_rows : list RSSEntry;     (* the table as the session sees it *)
  lp_log : list LogRecord;
  lp_reads : nat               (* readings of the clock so far *)
}.

(** [datetime.max], the last microsecond of 9999-12-31, counted from
    [datetime.min]. *)
Definition datetime_max : Z := 3652059 * usec_per_day - 1.

(** The largest magnitude of the [days] of a [timedelta]. *)
Definition timedelta_max_days : Z := 999999999.

(** [now - datetime.timedelta(days=d)]: [None] when the [timedelta] or the
    difference is out of range, where Python raises [OverflowError]. *)
Definition minus_days (now d : Z) : option Z :=
  if Z.abs d >? timedelta_max_days then None
  else
    let t := now - d * usec_per_day in
    if (t <? 0) || (t >? datetime_max) then None else Some t.

(** The decision [add] for one row, given [len(rss_items)] and the clock
    reading of this iteration; the age test raises when its date arithmetic
    overflows. *)
Definition keep_row (config : Config) (count : nat) (now : Z) (r : RSSEntry)
  : result bool :=
  let add := true in
  let add := if negb (items config =? -1)
             then (if Z.of_nat count >? items config then false else add)
             else add in
  if negb (days config =? -1) then
    match minus_days now (days config) with
    | None => Err OverflowError
    | Some cutoff => Ok (if cutoff >? published r then false else add)
    end
  else Ok add.

(** One iteration of the loop. *)
Definition loop_step (env : Env) (config : Config) (st : Loop) (r : RSSEntry)
  : result Loop :=
  let reads' := if negb (days config =? -1) then S (lp_reads st) else lp_reads st in
  match keep_row config (List.length (lp_items st)) (today env (lp_reads st)) r with
  | Err e => Err e
  | Ok true =>
      Ok {| lp_items := lp_items st ++ [make_item r];
            lp_rows := lp_rows st;
            lp_log := lp_log st ++ [LogTrace ("Adding " ++ title r ++ " into rss "
                                              ++ config_file config)%string];
            lp_reads := reads' |}
  | Ok false =>
      Ok {| lp_items := lp_items st;
            lp_rows := session_delete r (lp_rows st);
            lp_log := lp_log st;
            lp_reads := reads' |}
  end.

(** The loop over [db_items]; an exception of an iteration ends it. *)
Fixpoint make_items (env : Env) (config : Config) (db_items : list RSSEntry)
    (st : Loop) : outcome Loop :=
  match db_items with
  | [] => Return st
  | r :: rest =>
      match loop_step env config st r with
      | Ok st' => make_items env config rest st'
      | Err e => Raise e st
      end
  end.

Definition on_process_end (env : Env) (raw : RawConfig) (w : World) : outcome World :=
  if negb (rss2gen env) then Return w
  else if opt_learn env then Return w
  else
    let config := get_config raw in
    if is_written w (config_file config) then
      Return (add_log w (LogTrace ("skipping already written file "
                                   ++ config_file config)%string))
    else
      let db_items := order_by_published_desc (filter_file (config_file config) (db w)) in
      match make_items env config db_items
              {| lp_items := []; lp_rows := db w; lp_log := log w; lp_reads := O |} with
      | Raise e st =>
          (* the session is left without commit: nothing is deleted *)
          Raise e {| db := db w; written := written w;
                     trace := trace w; log := lp_log st |}
      | Return st =>
      (* session.commit() *)
      let w1 := {| db := lp_rows st; written := written w;
                   trace := trace w; log := lp_log st |} in
      let rss := {| rss_title := "FlexGet";
                    rss_link := setdefault (config_rsslink config) "http://flexget.com"%string;
                    rss_description := "FlexGet generated RSS feed";
                    lastBuildDate := utcnow env;
                    rss_items := lp_items st |} in
      let fn := expanduser env (config_file config) in
      match open_w env fn with
      | Some e => Raise e w1
      | None =>
          let w2 := add_log (add_event w1 (Opened fn))
                            (LogVerbose ("Writing output rss to " ++ fn)%string) in
          match write_xml env fn (encoding config) rss with
          | None =>
              Return (mark_written (add_event w2 (Wrote fn (encoding config) rss))
                                   (config_file config))
          | Some LookupError =>
              Return (add_log w2 (LogCritical ("Unknown encoding "
                                               ++ encoding config)%string))
          | Some IOError =>
              Return (add_log w2 (LogCritical ("Unable to write " ++ fn)%string))
          | Some e => Raise e w2
          end
      end
      end.

End MakeRss.

(* ================================================================== *)
(** * Reference definitions and sample data used by the properties *)
(* ================================================================== *)

Module FilterData.
Import ContentFilter.

(** The reading of [matchAny] in the design notes: the first mask, in the
    order of the mask list, that some file matches. *)
Definition matchAny_spec (fnmatch : string -> string -> bool)
    (files masks : list string) : option string :=
  find (fun mask => existsb (fun file => fnmatch file mask) files) masks.

(** A file matches none of the masks. *)
Definition unmatched (fnmatch : string -> string -> bool)
    (file : string) (masks : list string) : Prop :=
  forall mask, In mask masks -> fnmatch file mask = false.

(** Some file matches some mask. *)
Definition some_match (fnmatch : string -> string -> bool)
    (files masks : list string) : Prop :=
  exists file mask, In file files /\ In mask masks /\ fnmatch file mask = true.

(** Rule 1 applies: [require] is not empty and no file matches any of it. *)
Definition applies_require (fnmatch : string -> string -> bool)
    (config : Config) (files : list string) : Prop :=
  key_masks (require config) <> []
  /\ ~ some_match fnmatch files (key_masks (require config)).

(** Rule 2 applies: [require_all] is not empty and the number of matching
    (file, mask) pairs differs from the number of masks. *)
Definition applies_require_all (fnmatch : string -> string -> bool)
    (config : Config) (files : list string) : Prop :=
  key_masks (require_all config) <> []
  /\ count_matches fnmatch files (key_masks (require_all config))
     <> List.length (key_masks (require_all config)).

(** Rule 3 applies: [reject] is not empty and some file matches one of it. *)
Definition applies_reject (fnmatch : string -> string -> bool)
    (config : Config) (files : list string) : Prop :=
  key_masks (reject config) <> []
  /\ some_match fnmatch files (key_masks (reject config)).

Definition no_config : RawConfig :=
  {| raw_require := None; raw_require_all := None;
     raw_reject := None; raw_strict := None |}.

Definition entry_with (files : option (list string)) : Entry :=
  {| title := "show"; torrent := None; content_files := files; rejected := None |}.

(** Two video files and no subtitle file, asked for both. *)
Definition two_videos : list string := ["a.mkv"; "b.mkv"].

Definition config_video_and_subs : RawConfig :=
  {| raw_require := None;
     raw_require_all := Some (Masks ["*.mkv"; "*.srt"]);
     raw_reject := None; raw_strict := None |}.

(** A file list in which the first file matches only the second mask. *)
Definition nfo_then_video : list string := ["a.nfo"; "a.mkv"].
Definition video_then_nfo_masks : list string := ["*.mkv"; "*.nfo"].

(** A manifest with an empty path and a rule with an empty mask. *)
Definition config_reject_empty : RawConfig :=
  {| raw_require := None; raw_require_all := None;
     raw_reject := Some (Text EmptyString); raw_strict := None |}.

Definition config_strict (b : bool) : RawConfig :=
  {| raw_require := Some (Masks ["*.avi"; "*.mkv"]);
     raw_require_all := None;
     raw_reject := Some (Text "*.nfo");
     raw_strict := Some b |}.

Definition video_and_nfo : list string := ["show.mkv"; "show.nfo"].

End FilterData.

Module RssData.
Import MakeRss.
Local Open Scope list_scope.
Local Open Scope Z_scope.

(** The state a handler leaves behind, whether it returned or raised. *)
Definition world_of {W : Type} (o : outcome W) : W :=
  match o with
  | Return w => w
  | Raise _ w => w
  end.

(** The number of completed writes of a feed document in a trace. *)
Fixpoint count_writes (t : list IOEvent) : nat :=
  match t with
  | [] => O
  | Wrote _ _ _ :: t' => S (count_writes t')
  | Opened _ :: t' => count_writes t'
  end.

(** The number of times a destination was opened for writing. *)
Fixpoint count_opens (t : list IOEvent) : nat :=
  match t with
  | [] => O
  | Opened _ :: t' => S (count_opens t')
  | Wrote _ _ _ :: t' => count_opens t'
  end.

(** The log record is a call to [log.critical]. *)
Definition is_critical (r : LogRecord) : bool :=
  match r with
  | LogCritical _ => true
  | _ => false
  end.

(** A list of rows is ordered newest first. *)
Definition newest_first (l : list RSSEntry) : Prop :=
  StronglySorted (fun a b => published a >= published b) l.

(** The entries of a document are ordered newest first. *)
Definition items_newest_first (l : list RSSItem) : Prop :=
  StronglySorted (fun a b => pubDate a >= pubDate b) l.

(** [listNewestFirst]: the query of [on_process_end]. *)
Definition list_newest_first (f : string) (rows : list RSSEntry) : list RSSEntry :=
  order_by_published_desc (filter_file f rows).

(** The age test can be made at every row of [l] by a loop that has read the
    clock [reads] times already. *)
Definition tests_in_range (env : Env) (config : Config) (reads : nat)
    (l : list RSSEntry) : Prop :=
  days config = -1
  \/ forall j, (j < List.length l)%nat ->
                minus_days (today env (reads + j)) (days config) <> None.

(** The age test can be made at every row of the list the loop goes
    through: there is no age bound, or the date arithmetic stays in range at
    each clock reading of the loop. *)
Definition loop_completes (env : Env) (config : Config) (l : list RSSEntry) : Prop :=
  days config = -1
  \/ forall k, (k < List.length l)%nat ->
                minus_days (today env k) (days config) <> None.

(** The rows for which the loop "make items" decides [add = True], when it
    starts with [count] items and [reads] clock readings (up to the row, if
    any, at which the age test raises). *)
Fixpoint kept_rows (env : Env) (config : Config) (count reads : nat)
    (l : list RSSEntry) : list RSSEntry :=
  match l with
  | [] => []
  | r :: l' =>
      let reads' := if negb (days config =? -1) then S reads else reads in
      match keep_row config count (today env reads) r with
      | Ok true => r :: kept_rows env config (S count) reads' l'
      | Ok false => kept_rows env config count reads' l'
      | Err _ => []
      end
  end.

(** The rows for which the loop decides [add = False]. *)
Fixpoint dropped_rows (env : Env) (config : Config) (count reads : nat)
    (l : list RSSEntry) : list RSSEntry :=
  match l with
  | [] => []
  | r :: l' =>
      let reads' := if negb (days config =? -1) then S reads else reads in
      match keep_row config count (today env reads) r with
      | Ok true => dropped_rows env config (S count) reads' l'
      | Ok false => r :: dropped_rows env config count reads' l'
      | Err _ => []
      end
  end.

(** The primary key of a row is among those of a list of rows. *)
Definition mem_id (r : RSSEntry) (ds : list RSSEntry) : bool :=
  existsb (fun d => id r =? id d) ds.

(** The table without the rows whose key is in [ds]. *)
Definition delete_all (ds rows : list RSSEntry) : list RSSEntry :=
  filter (fun r => negb (mem_id r ds)) rows.

(** The table after the loop "make items" of [on_process_end]. *)
Definition store_after (env : Env) (config : Config) (w : World) : list RSSEntry :=
  delete_all
    (dropped_rows env config 0 0 (list_newest_first (config_file config) (db w)))
    (db w).

(** The document [on_process_end] builds. *)
Definition feed_document (env : Env) (config : Config) (w : World) : RSS2 :=
  {| rss_title := "FlexGet";
     rss_link := setdefault (config_rsslink config) "http://flexget.com"%string;
     rss_description := "FlexGet generated RSS feed";
     lastBuildDate := utcnow env;
     rss_items :=
       map make_item
         (kept_rows env config 0 0 (list_newest_first (config_file config) (db w))) |}.

(** The row [on_task_exit] saves for an accepted entry. *)
Definition saved_as (env : Env) (config : Config) (e : Entry) (r : RSSEntry) : Prop :=
  entry_render env e (config_title config) = Ok (title r)
  /\ link r = select_link e (config_link config)
  /\ rsslink r = None
  /\ file r = config_file config
  /\ published r = schema_default env
  /\ description r
     = match render_description env (template config) e with
       | Ok d => d
       | Err _ => (entry_title e ++ render_error_suffix)%string
       end.

(** The rows of the table that are still there after [on_task_exit]: all of
    them, or with history off those that are not rows of the file. *)
Definition backlog (env : Env) (raw : RawConfig) (w : World) : list RSSEntry :=
  if rss2gen env && negb (opt_test env) && negb (history (get_config raw))
  then clear_history (config_file (get_config raw)) (db w)
  else db w.

(** The same environment with other clock readings. *)
Definition with_clock (env : Env) (t : nat -> Z) (u : Z) : Env :=
  {| rss2gen := rss2gen env; opt_test := opt_test env; opt_learn := opt_learn env;
     schema_default := schema_default env;
     entry_render := entry_render env;
     render_description := render_description env;
     expanduser := expanduser env;
     open_w := open_w env; write_xml := write_xml env;
     today := t; utcnow := u |}.

(** ** Sample data *)

Definition empty_world : World :=
  {| db := []; written := []; trace := []; log := [] |}.

Definition row (i : Z) (t f : string) (p : Z) : RSSEntry :=
  {| id := i; title := t; description := t; link := None; rsslink := None;
     file := f; published := p |}.

Definition world_with (rows : list RSSEntry) : World :=
  {| db := rows; written := []; trace := []; log := [] |}.

Definition feed : string := "feed.rss".

(** A config with the given bounds for the file [feed.rss]. *)
Definition config_bounds (d i : Z) (enc : string) : RawConfig :=
  ConfigKeys {| cfg_file := feed; cfg_days := Some d; cfg_items := Some i;
                cfg_history := None; cfg_rsslink := None;
                cfg_encoding := Some enc; cfg_title := None; cfg_link := None |}.

(** The clock stands at day 100 in the samples. *)
Definition day (n : Z) : Z := n * usec_per_day.

(** Everything outside the plugin works: templates render, the path can be
    opened and the document written. *)
Definition env_ok : Env :=
  {| rss2gen := true; opt_test := false; opt_learn := false;
     schema_default := day 50;
     entry_render := fun e _ => Ok (entry_title e);
     render_description := fun _ e => Ok ("about " ++ entry_title e)%string;
     expanduser := fun p => p;
     open_w := fun _ => None;
     write_xml := fun _ _ _ => None;
     today := fun _ => day 100;
     utcnow := day 100 |}.

Definition with_medium (env : Env) (o : string -> option exn)
    (wr : string -> string -> RSS2 -> option exn) : Env :=
  {| rss2gen := rss2gen env; opt_test := opt_test env; opt_learn := opt_learn env;
     schema_default := schema_default env;
     entry_render := entry_render env;
     render_description := render_description env;
     expanduser := expanduser env;
     open_w := o; write_xml := wr;
     today := today env; utcnow := utcnow env |}.

Definition with_templates (env : Env) (rt : Entry -> string -> result string)
    (rd : string -> Entry -> result string) : Env :=
  {| rss2gen := rss2gen env; opt_test := opt_test env; opt_learn := opt_learn env;
     schema_default := schema_default env;
     entry_render := rt;
     render_description := rd;
     expanduser := expanduser env;
     open_w := open_w env; write_xml := write_xml env;
     today := today env; utcnow := utcnow env |}.

(** The encoding of the config is not known to the codec registry. *)
Definition env_unknown_encoding : Env :=
  with_medium env_ok (fun _ => None) (fun _ _ _ => Some LookupError).

(** The path of the destination cannot be opened for writing. *)
Definition env_unwritable : Env :=
  with_medium env_ok (fun _ => Some IOError) (fun _ _ _ => None).

(** The title template does not render. *)
Definition env_title_fails : Env :=
  with_templates env_ok (fun _ _ => Err RenderError)
                 (fun _ e => Ok ("about " ++ entry_title e)%string).

(** The description template does not render. *)
Definition env_description_fails : Env :=
  with_templates env_ok (fun e _ => Ok (entry_title e)) (fun _ _ => Err RenderError).

Definition episode : Entry :=
  {| entry_title := "episode"; fields := [("url", "http://example.org/e")] |}.

(** Rows of [feed.rss] aged 10, 3 and 1 days on day 100, in table order. *)
Definition aged_rows : list RSSEntry :=
  [row 1 "old" feed (day 90); row 2 "recent" feed (day 97); row 3 "new" feed (day 99)].

End RssData.

(* ================================================================== *)
(** * The rest of the two files *)
(* ================================================================== *)

Module FilterMore.
Import ContentFilter.
Local Open Scope list_scope.

(** A config in which every text under a mask key is written as a list of
    one text. *)
Definition as_lists (raw : RawConfig) : RawConfig :=
  let wrap v := match v with
                | Some (Text s) => Some (Masks [s])
                | other => other
                end in
  {| raw_require := wrap (raw_require raw);
     raw_require_all := wrap (raw_require_all raw);
     raw_reject := wrap (raw_reject raw);
     raw_strict := raw_strict raw |}.

(** The number of files a mask matches. *)
Definition count_files (fnmatch : string -> string -> bool)
    (files : list string) (mask : string) : nat :=
  List.length (filter (fun file => fnmatch file mask) files).

(** A torrent entry of one file in a directory, without manifest. *)
Definition torrent_entry : Entry :=
  {| title := "show";
     torrent := Some [{| path := "show"; name := "e01.mkv" |};
                      {| path := "show"; name := "e01.nfo" |}];
     content_files := None;
     rejected := None |}.

End FilterMore.

Module RssSchema.
Import MakeRss.
Local Open Scope list_scope.
Local Open Scope Z_scope.

Section Upgrade.

(** The database session, and the two helpers of
    [flexget.utils.sqlalchemy_utils] the upgrade uses: the column names of a
    table and the addition of a column to a table. *)
Variable Session : Type.
Variable table_columns : string -> Session -> list string.
Variable table_add_column : string -> string -> Session -> Session.

(** [upgrade(ver, session)], registered for the schema [make_rss]: the new
    version and the session afterwards.  [None] is the version of a database
    that has no version recorded.  The line written to the log when the
    column is added is left out. *)
Definition upgrade (ver : option Z) (session : Session) : option Z * Session :=
  match ver with
  | None =>
      let columns := table_columns "make_rss" session in
      let session' :=
        if negb (existsb (String.eqb "rsslink") columns)
        then table_add_column "make_rss" "rsslink" session
        else session in
      (Some 0, session')
  | Some v => (Some v, session)
  end.

End Upgrade.

(** A session that holds only the columns of the table [make_rss]. *)
Definition columns_of (_ : string) (s : list string) : list string := s.
Definition add_column (_ : string) (c : string) (s : list string) : list string :=
  s ++ [c].

(** The dict [task.config['make_rss']] after a call of [get_config]: the
    call fills the defaults into the dict of the task and appends [url] to
    its [link] list.  A text config is left as it is: the call works on a
    fresh dict. *)
Definition stored_config (raw : RawConfig) : RawConfig :=
  match raw with
  | ConfigText f => ConfigText f
  | ConfigKeys d =>
      ConfigKeys
        {| cfg_file := cfg_file d;
           cfg_days := Some (setdefault (cfg_days d) 7);
           cfg_items := Some (setdefault (cfg_items d) (-1));
           cfg_history := Some (setdefault (cfg_history d) true);
           cfg_rsslink := cfg_rsslink d;
           cfg_encoding := Some (setdefault (cfg_encoding d) "iso-8859-1"%string);
           cfg_title := Some (setdefault (cfg_title d) "{{title}} (from {{task}})"%string);
           cfg_link := Some (setdefault (cfg_link d) ["imdb_url"%string; "input_url"%string]
                             ++ ["url"%string]) |}
  end.

(** A config with another link preference list. *)
Definition set_link (c : Config) (names : list string) : Config :=
  {| config_file := config_file c; days := days c; items := items c;
     history := history c; config_rsslink := config_rsslink c;
     encoding := encoding c; config_link := names;
     config_title := config_title c; template := template c |}.

(** The path an event on the medium is about. *)
Definition event_path (ev : IOEvent) : string :=
  match ev with
  | Opened fn => fn
  | Wrote fn _ _ => fn
  end.

(** The state at the start of a process: [self.written] is empty. *)
Definition new_process (w : World) : World :=
  {| db := db w; written := []; trace := trace w; log := log w |}.

(** A config given as a dict that sets only the link preference. *)
Definition config_links (names : list string) : RawConfig :=
  ConfigKeys {| cfg_file := "feed.rss"; cfg_days := None; cfg_items := None;
                cfg_history := None; cfg_rsslink := None; cfg_encoding := None;
                cfg_title := None; cfg_link := Some names |}.

(** A config for [feed.rss] with history switched off. *)
Definition config_no_history : RawConfig :=
  ConfigKeys {| cfg_file := "feed.rss"; cfg_days := None; cfg_items := None;
                cfg_history := Some false; cfg_rsslink := None; cfg_encoding := None;
                cfg_title := None; cfg_link := None |}.

End RssSchema.

(* ================================================================== *)
(** * Properties of content_filter.py *)
(* ================================================================== *)

Module FilterProps.
Import ContentFilter FilterData.
Local Open Scope list_scope.

Section Matcher.

Variable fnmatch : string -> string -> bool.

Local Abbreviation unmatched := (unmatched fnmatch).
Local Abbreviation some_match := (some_match fnmatch).

Lemma first_mask_None file masks :
  first_mask fnmatch file masks = None <-> unmatched file masks.
Proof.
  unfold FilterData.unmatched. induction masks as [|m ms IH]; simpl.
  - split; [intros _ mask [] | reflexivity].
  - destruct (fnmatch file m) eqn:Hm.
    + split; [discriminate|]. intros H. rewrite (H m) in Hm by auto. discriminate.
    + rewrite IH. split.
      * intros H mask [<-|Hin]; auto.
      * intros H mask Hin. apply H. auto.
Qed.

Lemma first_mask_Some file masks mask :
  first_mask fnmatch file masks = Some mask ->
  exists before after,
    masks = before ++ mask :: after /\
    unmatched file before /\
    fnmatch file mask = true.
Proof.
  unfold FilterData.unmatched. induction masks as [|m ms IH]; simpl; [discriminate|].
  destruct (fnmatch file m) eqn:Hm.
  - intros [= <-]. exists [], ms. repeat split; auto. intros ? [].
  - intros H. destruct (IH H) as (b & a & -> & Hb & Hma).
    exists (m :: b), a. repeat split; auto.
    intros mask' [<-|Hin]; auto.
Qed.

Lemma matching_mask_None files masks :
  matching_mask fnmatch files masks = None <->
  (forall file, In file files -> unmatched file masks).
Proof.
  induction files as [|f fs IH]; simpl.
  - split; [intros _ ? [] | reflexivity].
  - destruct (first_mask fnmatch f masks) eqn:Hf.
    + split; [discriminate|]. intros H.
      assert (Hn : first_mask fnmatch f masks = None)
        by (apply first_mask_None, H; auto).
      congruence.
    + apply first_mask_None in Hf. rewrite IH. split.
      * intros H file [<-|Hin]; auto.
      * intros H file Hin. apply H. auto.
Qed.

Lemma matching_mask_Some files masks mask :
  matching_mask fnmatch files masks = Some mask ->
  exists skipped file later,
    files = skipped ++ file :: later /\
    (forall file', In file' skipped -> unmatched file' masks) /\
    first_mask fnmatch file masks = Some mask.
Proof.
  induction files as [|f fs IH]; simpl; [discriminate|].
  destruct (first_mask fnmatch f masks) eqn:Hf.
  - intros [= <-]. exists [], f, fs. repeat split; auto. intros ? [].
  - intros H. destruct (IH H) as (sk & file & lt & -> & Hsk & Hfile).
    exists (f :: sk), file, lt. repeat split; auto.
    intros file' [<-|Hin]; auto. now apply first_mask_None.
Qed.

Lemma matching_mask_In files masks mask :
  matching_mask fnmatch files masks = Some mask ->
  In mask masks /\ exists file, In file files /\ fnmatch file mask = true.
Proof.
  intros H. apply matching_mask_Some in H.
  destruct H as (sk & file & lt & -> & _ & Hf).
  apply first_mask_Some in Hf. destruct Hf as (b & a & -> & _ & Hm).
  split.
  - apply in_or_app. right. left. reflexivity.
  - exists file. split; auto. apply in_or_app. right. left. reflexivity.
Qed.

(** C2 (as amended).  [matching_mask] returns [None] exactly when no file
    matches any mask.  When it returns a mask, that mask is the first mask, in
    the order of the mask list, matched by the first file, in the order of the
    file list, that matches any mask at all: the files before it match
    nothing, and it matches none of the earlier masks. *)
Theorem C2_matching_mask_first_file_first_mask (files masks : list string) :
  (matching_mask fnmatch files masks = None <->
   (forall file mask, In file files -> In mask masks -> fnmatch file mask = false))
  /\
  (forall mask, matching_mask fnmatch files masks = Some mask ->
     exists skipped file later before after,
       files = skipped ++ file :: later /\
       masks = before ++ mask :: after /\
       (forall file' mask', In file' skipped -> In mask' masks ->
                            fnmatch file' mask' = false) /\
       (forall mask', In mask' before -> fnmatch file mask' = false) /\
       fnmatch file mask = true).
Proof.
  split.
  - rewrite matching_mask_None. unfold FilterData.unmatched. split; intros H; eauto.
  - intros mask H.
    destruct (matching_mask_Some _ _ _ H) as (sk & file & lt & Hfiles & Hsk & Hf).
    destruct (first_mask_Some _ _ _ Hf) as (b & a & Hmasks & Hb & Hm).
    exists sk, file, lt, b, a. repeat split; auto.
    intros file' mask' Hin Hin'. exact (Hsk file' Hin mask' Hin').
Qed.

Lemma truthy_key_spec (v : option (list string)) :
  truthy_key v = true <-> key_masks v <> [].
Proof.
  destruct v as [[|m l]|]; simpl; split; intros H; try congruence; try discriminate.
Qed.

Lemma some_match_spec files masks :
  matching_mask fnmatch files masks <> None <-> some_match files masks.
Proof.
  rewrite matching_mask_None. unfold FilterData.some_match, FilterData.unmatched.
  split.
  - intros H.
    destruct (matching_mask fnmatch files masks) as [mask|] eqn:Hm.
    + destruct (matching_mask_In _ _ _ Hm) as (Hin & file & Hf & Hfm). eauto.
    + exfalso. apply H. now apply matching_mask_None.
  - intros (file & mask & Hf & Hm & Hfm) H.
    rewrite (H file Hf mask Hm) in Hfm. discriminate.
Qed.

(** When [matching_mask] does not return the empty mask, the truth value of
    its result tells whether some file matches some mask. *)
Lemma truthy_mask_spec files masks :
  matching_mask fnmatch files masks <> Some EmptyString ->
  truthy_mask (matching_mask fnmatch files masks) = true <-> some_match files masks.
Proof.
  intros Hne. rewrite <- some_match_spec.
  destruct (matching_mask fnmatch files masks) as [mask|] eqn:Hm; simpl.
  - destruct mask; simpl; [contradiction|]. split; [discriminate | reflexivity].
  - split; [discriminate | congruence].
Qed.

(** The order of the rules.  For a present manifest for which
    [matching_mask] returns the empty mask neither on the [require] list nor
    on the [reject] list, [process_entry] applies the rules in this order and
    stops at the first that applies: (1) [require] is
    not empty and no file matches any of its masks: rejected, "does not have
    any of the required filetypes"; (2) the [require_all] check fails:
    rejected, "does not have all of the required filetypes"; (3) [reject] is
    not empty and some file matches one of its masks: rejected, "has banned
    file" followed by the mask [matching_mask] returns; (4) otherwise the
    entry is left as it is and no rejection is reported. *)
Lemma rules_in_order (raw : RawConfig) (e : Entry) (files : list string) :
  content_files e = Some files ->
  matching_mask fnmatch files (key_masks (require (get_config raw)))
  <> Some EmptyString ->
  matching_mask fnmatch files (key_masks (reject (get_config raw)))
  <> Some EmptyString ->
  let config := get_config raw in
  let rule1 := applies_require fnmatch config files in
  let rule2 := applies_require_all fnmatch config files in
  let rule3 := applies_reject fnmatch config files in
  (rule1 -> process_entry fnmatch raw e = (entry_reject e reason_require, true))
  /\ (~ rule1 -> rule2 ->
      process_entry fnmatch raw e = (entry_reject e reason_require_all, true))
  /\ (~ rule1 -> ~ rule2 -> rule3 ->
      exists mask,
        matching_mask fnmatch files (key_masks (reject config)) = Some mask
        /\ In mask (key_masks (reject config))
        /\ (exists file, In file files /\ fnmatch file mask = true)
        /\ process_entry fnmatch raw e = (entry_reject e (reason_banned mask), true))
  /\ (~ rule1 -> ~ rule2 -> ~ rule3 -> process_entry fnmatch raw e = (e, false)).
Proof.
  intros Hfiles HneR HneJ config rule1 rule2 rule3.
  subst rule1 rule2 rule3.
  unfold applies_require, applies_require_all, applies_reject, process_entry.
  fold config. rewrite Hfiles.
  pose proof (truthy_key_spec (require config)) as HR.
  pose proof (truthy_key_spec (require_all config)) as HA.
  pose proof (truthy_key_spec (reject config)) as HJ.
  pose proof (truthy_mask_spec files _ HneR) as HmR.
  pose proof (truthy_mask_spec files _ HneJ) as HmJ.
  fold config in HmR, HmJ.
  assert (Hstep1 :
    truthy_key (require config)
    && negb (truthy_mask (matching_mask fnmatch files (key_masks (require config))))
    = true <->
    key_masks (require config) <> []
    /\ ~ some_match files (key_masks (require config))).
  { rewrite andb_true_iff, negb_true_iff, HR, <- HmR.
    destruct (truthy_mask _); intuition congruence. }
  assert (Hstep2 :
    truthy_key (require_all config)
    && negb (Nat.eqb (count_matches fnmatch files (key_masks (require_all config)))
                     (List.length (key_masks (require_all config))))
    = true <->
    key_masks (require_all config) <> []
    /\ count_matches fnmatch files (key_masks (require_all config))
       <> List.length (key_masks (require_all config))).
  { rewrite andb_true_iff, negb_true_iff, HA, Nat.eqb_neq. reflexivity. }
  destruct (truthy_key (require config)
            && negb (truthy_mask (matching_mask fnmatch files
                                    (key_masks (require config))))) eqn:E1.
  { assert (H1 := proj1 Hstep1 eq_refl).
    repeat split; intros; try reflexivity; contradiction. }
  assert (N1 : ~ (key_masks (require config) <> []
                  /\ ~ some_match files (key_masks (require config)))).
  { intros H. apply Hstep1 in H. discriminate. }
  destruct (truthy_key (require_all config)
            && negb (Nat.eqb (count_matches fnmatch files
                                (key_masks (require_all config)))
                             (List.length (key_masks (require_all config))))) eqn:E2.
  { assert (H2 := proj1 Hstep2 eq_refl).
    repeat split; intros; try reflexivity; contradiction. }
  assert (N2 : ~ (key_masks (require_all config) <> []
                  /\ count_matches fnmatch files (key_masks (require_all config))
                     <> List.length (key_masks (require_all config)))).
  { intros H. apply Hstep2 in H. discriminate. }
  split; [intros; contradiction|].
  split; [intros; contradiction|].
  destruct (truthy_key (reject config)) eqn:E3.
  - assert (H3 := proj1 HJ eq_refl).
    destruct (matching_mask fnmatch files (key_masks (reject config)))
      as [mask|] eqn:Hm.
    + destruct (matching_mask_In _ _ _ Hm) as (Hin & Hex).
      assert (Ht : truthy_str mask = true).
      { destruct mask; [exfalso; apply HneJ; exact Hm | reflexivity]. }
      rewrite Ht. split.
      * intros _ _ _. exists mask. repeat split; auto.
      * intros _ _ N3. exfalso. apply N3. split; auto.
        apply some_match_spec. congruence.
    + split.
      * intros _ _ (_ & Hsome). apply some_match_spec in Hsome. congruence.
      * reflexivity.
  - split.
    + intros _ _ (Hne & _). apply HJ in Hne. congruence.
    + reflexivity.
Qed.

(** C8.  For an entry that has no manifest after [parse_torrent_files], the
    loop body of [on_task_modify] rejects it with the reason "no content files
    parsed for entry" and asks for a rerun exactly when [strict] is set and
    true; otherwise the entry is returned unchanged and no rerun is asked
    for.  The masks play no part: two configs with the same [strict] give the
    same result.  [on_task_modify] on a task with this one accepted entry
    gives the same outcome. *)
Theorem C8_absent_manifest_strict (raw : RawConfig) (e : Entry) :
  content_files (parse_torrent_files e) = None ->
  modify_entry fnmatch raw e
  = (if truthy_flag (raw_strict raw)
     then (entry_reject e reason_strict, true)
     else (e, false))
  /\ (forall raw', raw_strict raw' = raw_strict raw ->
        modify_entry fnmatch raw' e = modify_entry fnmatch raw e)
  /\ on_task_modify fnmatch raw [e] false
     = (if truthy_flag (raw_strict raw)
        then ([entry_reject e reason_strict], true)
        else ([e], false)).
Proof.
  intros Habsent.
  assert (Hparse : parse_torrent_files e = e).
  { unfold parse_torrent_files in *. destruct (torrent e) as [fl|]; auto.
    destruct (truthy_list _); auto. simpl in Habsent. discriminate. }
  assert (Hgen : forall r,
    modify_entry fnmatch r e
    = (if truthy_flag (raw_strict r)
       then (entry_reject e reason_strict, true) else (e, false))).
  { intros r. unfold modify_entry, process_entry.
    rewrite Hparse in *. rewrite Habsent. simpl. rewrite Habsent. reflexivity. }
  split; [apply Hgen|]. split.
  - intros raw' Hs. rewrite !Hgen, Hs. reflexivity.
  - cbn [on_task_modify]. rewrite Hgen.
    destruct (truthy_flag (raw_strict raw)); reflexivity.
Qed.

End Matcher.

(** C2, witness: the amended statement at the file list [a.nfo; a.mkv] and
    the masks [*.mkv; *.nfo]. *)
Lemma C2_witness :
  matching_mask fnmatch_glob nfo_then_video video_then_nfo_masks = Some "*.nfo"
  /\ exists skipped file later before after,
       nfo_then_video = skipped ++ file :: later /\
       video_then_nfo_masks = before ++ "*.nfo" :: after /\
       (forall file' mask', In file' skipped -> In mask' video_then_nfo_masks ->
                            fnmatch_glob file' mask' = false) /\
       (forall mask', In mask' before -> fnmatch_glob file mask' = false) /\
       fnmatch_glob file "*.nfo" = true.
Proof.
  split; [reflexivity|].
  apply (proj2 (C2_matching_mask_first_file_first_mask fnmatch_glob
                  nfo_then_video video_then_nfo_masks)).
  reflexivity.
Defined.

(** C2, counterexample to the claim as stated: with the files [a.nfo; a.mkv]
    and the masks [*.mkv; *.nfo] some file matches the first mask [*.mkv],
    yet [matching_mask] returns the second mask [*.nfo], because the first
    file matches it. *)
Lemma C2_counterexample :
  matchAny_spec fnmatch_glob nfo_then_video video_then_nfo_masks = Some "*.mkv"
  /\ matching_mask fnmatch_glob nfo_then_video video_then_nfo_masks = Some "*.nfo"
  /\ matching_mask fnmatch_glob nfo_then_video video_then_nfo_masks
     <> matchAny_spec fnmatch_glob nfo_then_video video_then_nfo_masks.
Proof.
  repeat split; try reflexivity. vm_compute. discriminate.
Qed.

(** C1, the code at the failing input: with the files [a.mkv; b.mkv] and
    [require_all] = [*.mkv; *.srt] no file matches [*.srt], the mask [*.mkv]
    matches twice, the count 2 equals the number of masks, and
    [process_entry] does not reject the entry. *)
Theorem C1_require_all_counts_pairs :
  (forall file, In file two_videos -> fnmatch_glob file "*.srt" = false)
  /\ count_matches fnmatch_glob two_videos ["*.mkv"; "*.srt"] = 2
  /\ process_entry fnmatch_glob config_video_and_subs (entry_with (Some two_videos))
     = (entry_with (Some two_videos), false).
Proof.
  split; [|split]; try reflexivity.
  intros file [<-|[<-|[]]]; reflexivity.
Qed.

(** The rules on the files [show.mkv; show.nfo] under [require] =
    [*.avi; *.mkv] and [reject] = [*.nfo]: rejected by rule 3 with the mask
    [*.nfo]. *)
Example rules_in_order_banned_file :
  exists mask,
    matching_mask fnmatch_glob video_and_nfo
      (key_masks (reject (get_config (config_strict false)))) = Some mask
    /\ In mask (key_masks (reject (get_config (config_strict false))))
    /\ (exists file, In file video_and_nfo /\ fnmatch_glob file mask = true)
    /\ process_entry fnmatch_glob (config_strict false) (entry_with (Some video_and_nfo))
       = (entry_reject (entry_with (Some video_and_nfo)) (reason_banned mask), true).
Proof.
  refine (proj1 (proj2 (proj2
    (rules_in_order fnmatch_glob (config_strict false)
       (entry_with (Some video_and_nfo)) video_and_nfo eq_refl _ _))) _ _ _).
  - discriminate.
  - discriminate.
  - intros (_ & Hno). apply Hno.
    exists "show.mkv", "*.mkv". simpl. repeat split; auto.
  - intros (Hne & _). apply Hne. reflexivity.
  - split; [discriminate|].
    exists "show.nfo", "*.nfo". simpl. repeat split; auto.
Qed.

(** C7, the code at the failing input: a manifest that holds the empty
    path and a [reject] list that holds the empty mask.  Rules 1 and 2 do not
    apply and rule 3 does: the file matches the mask and [matching_mask]
    returns it.  But the returned mask is tested for its truth value, the
    empty string is false, and the entry is not rejected. *)
Theorem C7_empty_mask_match_not_rejected :
  ~ applies_require fnmatch_glob (get_config config_reject_empty) [EmptyString]
  /\ ~ applies_require_all fnmatch_glob (get_config config_reject_empty) [EmptyString]
  /\ applies_reject fnmatch_glob (get_config config_reject_empty) [EmptyString]
  /\ matching_mask fnmatch_glob [EmptyString] [EmptyString] = Some EmptyString
  /\ process_entry fnmatch_glob config_reject_empty (entry_with (Some [EmptyString]))
     = (entry_with (Some [EmptyString]), false).
Proof.
  split; [|split; [|split; [|split]]]; try reflexivity.
  - intros (Hne & _). apply Hne. reflexivity.
  - intros (Hne & _). apply Hne. reflexivity.
  - split; [discriminate|].
    exists EmptyString, EmptyString. simpl. repeat split; auto.
Qed.

(** C8, witness: an entry with neither torrent nor manifest, under a config
    that has masks: rejected when [strict] is true, untouched when false. *)
Lemma C8_witness :
  modify_entry fnmatch_glob (config_strict true) (entry_with None)
  = (entry_reject (entry_with None) reason_strict, true)
  /\ modify_entry fnmatch_glob (config_strict false) (entry_with None)
     = (entry_with None, false).
Proof.
  split.
  - exact (proj1 (C8_absent_manifest_strict fnmatch_glob (config_strict true)
                    (entry_with None) eq_refl)).
  - exact (proj1 (C8_absent_manifest_strict fnmatch_glob (config_strict false)
                    (entry_with None) eq_refl)).
Defined.

(** ** The scenarios of the specification, run on the model *)

(** Scenario 1: [show.mkv; show.nfo] under [require] = [*.avi; *.mkv] is
    not rejected. *)
Example scenario_require_satisfied :
  process_entry fnmatch_glob
    {| raw_require := Some (Masks ["*.avi"; "*.mkv"]); raw_require_all := None;
       raw_reject := None; raw_strict := None |}
    (entry_with (Some video_and_nfo))
  = (entry_with (Some video_and_nfo), false).
Proof. reflexivity. Qed.

(** Scenario 2: [show.avi] under [reject] = [*.nfo] is not rejected. *)
Example scenario_nothing_banned :
  process_entry fnmatch_glob
    {| raw_require := Some (Masks []); raw_require_all := None;
       raw_reject := Some (Masks ["*.nfo"]); raw_strict := None |}
    (entry_with (Some ["show.avi"]))
  = (entry_with (Some ["show.avi"]), false).
Proof. reflexivity. Qed.

(** Scenario 3: [a.mkv] under [require_all] = [*.mkv; *.srt] is rejected:
    one matching pair, two masks. *)
Example scenario_require_all_missing :
  process_entry fnmatch_glob config_video_and_subs (entry_with (Some ["a.mkv"]))
  = (entry_reject (entry_with (Some ["a.mkv"])) reason_require_all, true).
Proof. reflexivity. Qed.

End FilterProps.

(* ================================================================== *)
(** * Properties of rss.py *)
(* ================================================================== *)

Module RssProps.
Import MakeRss RssData.
Local Open Scope list_scope.
Local Open Scope Z_scope.

(** ** The query *)

Lemma insert_desc_perm r l : Permutation (r :: l) (insert_desc r l).
Proof.
  induction l as [|x l IH]; simpl; auto.
  destruct (published x <=? published r); auto.
  rewrite perm_swap. constructor. exact IH.
Qed.

Lemma order_by_perm l : Permutation l (order_by_published_desc l).
Proof.
  induction l as [|x l IH]; simpl; auto.
  rewrite <- insert_desc_perm. constructor. exact IH.
Qed.

Lemma insert_desc_sorted r l : newest_first l -> newest_first (insert_desc r l).
Proof.
  unfold newest_first.
  induction l as [|x l IH]; simpl; intros Hs.
  - constructor; constructor.
  - inversion Hs as [|? ? Hs' Hall]; subst.
    destruct (published x <=? published r) eqn:E.
    + apply Z.leb_le in E. constructor; auto.
      constructor; [lia|].
      eapply Forall_impl; [|exact Hall]. simpl. intros; lia.
    + apply Z.leb_gt in E. constructor; auto.
      eapply Permutation_Forall; [apply insert_desc_perm|].
      constructor; [lia | exact Hall].
Qed.

Lemma order_by_sorted l : newest_first (order_by_published_desc l).
Proof.
  induction l as [|x l IH]; simpl.
  - constructor.
  - apply insert_desc_sorted, IH.
Qed.

Lemma insert_desc_head r l :
  Forall (fun x => published x <= published r) l -> insert_desc r l = r :: l.
Proof.
  destruct l as [|x l]; simpl; auto.
  intros H. inversion H; subst.
  destruct (published x <=? published r) eqn:E; auto.
  apply Z.leb_gt in E. lia.
Qed.

(** The ordering keeps rows with equal timestamps in place, so it commutes
    with a selection of rows. *)
Lemma filter_insert_desc (p : RSSEntry -> bool) r l :
  newest_first l ->
  filter p (insert_desc r l)
  = if p r then insert_desc r (filter p l) else filter p l.
Proof.
  unfold newest_first.
  induction l as [|x l IH]; intros Hs.
  - simpl. destruct (p r); reflexivity.
  - inversion Hs as [|? ? Hs' Hall]; subst.
    cbn [insert_desc].
    destruct (published x <=? published r) eqn:E.
    + apply Z.leb_le in E. cbn [filter].
      destruct (p r) eqn:Hr; auto.
      symmetry. apply (insert_desc_head r (filter p (x :: l))).
      apply Forall_forall. intros y Hy. apply filter_In in Hy. destruct Hy as [Hy _].
      destruct Hy as [<-|Hy]; auto.
      rewrite Forall_forall in Hall. specialize (Hall y Hy). simpl in Hall. lia.
    + cbn [filter]. rewrite (IH Hs').
      destruct (p x) eqn:Hx, (p r) eqn:Hr; auto.
      cbn [insert_desc]. rewrite E. reflexivity.
Qed.

Lemma filter_order_by (p : RSSEntry -> bool) l :
  filter p (order_by_published_desc l) = order_by_published_desc (filter p l).
Proof.
  induction l as [|x l IH]; simpl; auto.
  rewrite filter_insert_desc by apply order_by_sorted.
  rewrite IH. destruct (p x); reflexivity.
Qed.

Lemma filter_comm {A : Type} (p q : A -> bool) l :
  filter p (filter q l) = filter q (filter p l).
Proof.
  induction l as [|x l IH]; simpl; auto.
  destruct (q x) eqn:Hq, (p x) eqn:Hp; simpl; rewrite ?Hq, ?Hp, IH; reflexivity.
Qed.

Lemma NoDup_map_filter {A B : Type} (f : A -> B) (p : A -> bool) l :
  NoDup (map f l) -> NoDup (map f (filter p l)).
Proof.
  induction l as [|x l IH]; simpl; intros H; auto.
  inversion H; subst.
  destruct (p x); simpl; auto.
  constructor; auto.
  intros Hin. apply in_map_iff in Hin. destruct Hin as (y & Hy & Hin).
  apply filter_In in Hin. destruct Hin as [Hin _].
  match goal with Hn : ~ In (f x) _ |- _ => apply Hn end.
  rewrite <- Hy. apply in_map. exact Hin.
Qed.

Lemma list_newest_first_NoDup f rows :
  NoDup (map id rows) -> NoDup (map id (list_newest_first f rows)).
Proof.
  intros H. unfold list_newest_first.
  eapply Permutation_NoDup.
  - apply Permutation_map. apply order_by_perm.
  - unfold filter_file. apply NoDup_map_filter. exact H.
Qed.

(** ** The loop "make items" *)

Lemma delete_all_cons r ds rows :
  delete_all (r :: ds) rows = delete_all ds (session_delete r rows).
Proof.
  unfold delete_all, session_delete.
  induction rows as [|x rows IH]; auto.
  cbn [filter]. rewrite IH. unfold mem_id at 1. cbn [existsb].
  destruct (id x =? id r); reflexivity.
Qed.

Lemma minus_days_Some now d t :
  minus_days now d = Some t -> t = now - d * usec_per_day.
Proof.
  unfold minus_days. destruct (Z.abs d >? timedelta_max_days); [discriminate|].
  cbv zeta. destruct (_ || _); [discriminate|]. intros [= <-]. reflexivity.
Qed.

Lemma loop_completes_tests env config l :
  loop_completes env config l -> tests_in_range env config 0 l.
Proof. intros H. exact H. Qed.

Lemma tests_in_range_tail env config k r l :
  tests_in_range env config k (r :: l) ->
  tests_in_range env config (if negb (days config =? -1) then S k else k) l.
Proof.
  intros H. destruct (days config =? -1) eqn:E.
  - left. now apply Z.eqb_eq.
  - destruct H as [Hd | H]; [left; exact Hd|]. right. cbn [negb].
    intros j Hj. replace (S k + j)%nat with (k + S j)%nat by lia.
    apply H. simpl. lia.
Qed.

(** Where the age test can be made, the decision is the one of the two
    bounds: the items bound on the count, the age bound on the cutoff. *)
Lemma keep_row_in_range env config k r l c :
  tests_in_range env config k (r :: l) ->
  keep_row config c (today env k) r
  = Ok ((if negb (items config =? -1)
         then (if Z.of_nat c >? items config then false else true)
         else true)
        && (if negb (days config =? -1)
            then negb (today env k - days config * usec_per_day >? published r)
            else true)).
Proof.
  intros H. unfold keep_row.
  destruct (negb (days config =? -1)) eqn:E.
  - destruct H as [Hd | H].
    { rewrite Hd in E. discriminate. }
    specialize (H 0%nat). rewrite Nat.add_0_r in H.
    destruct (minus_days (today env k) (days config)) as [t|] eqn:Ht.
    + apply minus_days_Some in Ht. subst t.
      destruct (items config =? -1); cbn [negb];
        destruct (_ - _ >? published r); cbn [negb];
        rewrite ?andb_true_r, ?andb_false_r; try reflexivity.
    + exfalso. apply H; [simpl; lia | reflexivity].
  - rewrite andb_true_r. reflexivity.
Qed.

Lemma keep_row_in_range_Ok env config k r l c :
  tests_in_range env config k (r :: l) ->
  exists b, keep_row config c (today env k) r = Ok b.
Proof.
  intros H. rewrite (keep_row_in_range env config k r l c H). eauto.
Qed.

(** When the age test can be made at every row, the loop returns: the
    items are those of the rows kept and the rows dropped are deleted. *)
Lemma make_items_run env config l st :
  tests_in_range env config (lp_reads st) l ->
  exists st',
    make_items env config l st = Return st'
    /\ lp_items st'
       = lp_items st
         ++ map make_item (kept_rows env config (List.length (lp_items st))
                             (lp_reads st) l)
    /\ lp_rows st'
       = delete_all (dropped_rows env config (List.length (lp_items st))
                       (lp_reads st) l)
                    (lp_rows st).
Proof.
  revert st. induction l as [|r l IH]; intros st Hin.
  - exists st. cbn [make_items kept_rows dropped_rows map].
    rewrite app_nil_r. repeat split.
    unfold delete_all. simpl. induction (lp_rows st); simpl; congruence.
  - destruct (keep_row_in_range_Ok env config _ r l (List.length (lp_items st)) Hin)
      as (b & Hb).
    apply tests_in_range_tail in Hin.
    cbn [make_items kept_rows dropped_rows]. unfold loop_step. rewrite Hb.
    destruct b; cbv beta iota zeta.
    + match goal with
      | |- context [make_items env config l ?st1] =>
          destruct (IH st1 Hin) as (st' & Hrun & Hitems & Hrows)
      end.
      exists st'. split; [exact Hrun|].
      cbn [lp_items lp_rows lp_reads] in Hitems, Hrows.
      rewrite length_app, Nat.add_1_r in Hitems, Hrows.
      rewrite <- app_assoc in Hitems.
      split; [exact Hitems | exact Hrows].
    + match goal with
      | |- context [make_items env config l ?st1] =>
          destruct (IH st1 Hin) as (st' & Hrun & Hitems & Hrows)
      end.
      exists st'. split; [exact Hrun|].
      cbn [lp_items lp_rows lp_reads] in Hitems, Hrows.
      rewrite delete_all_cons. split; [exact Hitems | exact Hrows].
Qed.

Lemma dropped_rows_incl env config c k l r :
  In r (dropped_rows env config c k l) -> In r l.
Proof.
  revert c k. induction l as [|x l IH]; intros c k; simpl; auto.
  destruct (keep_row config c (today env k) x) as [[|]|]; simpl; intros H.
  - right. eapply IH, H.
  - destruct H as [->|H]; auto. right. eapply IH, H.
  - destruct H.
Qed.

Lemma mem_id_In r ds : In r ds -> mem_id r ds = true.
Proof.
  intros H. unfold mem_id. apply existsb_exists. exists r. split; auto.
  apply Z.eqb_refl.
Qed.

Lemma mem_id_false r ds : ~ In (id r) (map id ds) -> mem_id r ds = false.
Proof.
  intros H. unfold mem_id. destruct (existsb _ ds) eqn:E; auto.
  apply existsb_exists in E. destruct E as (d & Hd & Heq).
  apply Z.eqb_eq in Heq. exfalso. apply H. rewrite Heq. now apply in_map.
Qed.

(** With distinct keys, the rows that are not deleted are the rows the loop
    puts into the document. *)
Lemma kept_rows_filter env config c k l :
  tests_in_range env config k l ->
  NoDup (map id l) ->
  filter (fun r => negb (mem_id r (dropped_rows env config c k l))) l
  = kept_rows env config c k l.
Proof.
  revert c k. induction l as [|x l IH]; intros c k Hin Hnd; simpl; auto.
  inversion Hnd as [|? ? Hx Hnd']; subst.
  destruct (keep_row_in_range_Ok env config k x l c Hin) as (b & Hb).
  apply tests_in_range_tail in Hin.
  rewrite Hb. destruct b.
  - rewrite mem_id_false.
    + simpl. f_equal. apply IH; assumption.
    + intros Hi. apply Hx. apply in_map_iff in Hi.
      destruct Hi as (d & Hd & Hi). rewrite <- Hd.
      apply in_map. eapply dropped_rows_incl, Hi.
  - cbn [mem_id existsb]. rewrite Z.eqb_refl. simpl.
    rewrite <- (IH c _ Hin Hnd'). apply filter_ext_in.
    intros y Hy. fold (mem_id y (dropped_rows env config c
      (if negb (days config =? -1) then S k else k) l)).
    destruct (id y =? id x) eqn:E; auto.
    apply Z.eqb_eq in E. exfalso. apply Hx. rewrite <- E. now apply in_map.
Qed.

(** A row that is too old when the loop looks at it is deleted. *)
Lemma dropped_rows_old env config c k l n r :
  tests_in_range env config k l ->
  days config <> -1 ->
  nth_error l n = Some r ->
  today env (k + n) - published r > days config * usec_per_day ->
  In r (dropped_rows env config c k l).
Proof.
  intros Hin Hd. apply Z.eqb_neq in Hd.
  revert c k n Hin. induction l as [|x l IH]; intros c k n Hin Hn Hold.
  - destruct n; discriminate.
  - cbn [dropped_rows].
    rewrite (keep_row_in_range env config k x l c Hin).
    apply tests_in_range_tail in Hin. rewrite Hd in *. cbn [negb] in *.
    destruct n as [|n]; simpl in Hn.
    + injection Hn as ->. rewrite Nat.add_0_r in Hold.
      assert (Hgt : (today env k - days config * usec_per_day >? published r) = true).
      { rewrite Z.gtb_ltb. apply Z.ltb_lt. lia. }
      rewrite Hgt. cbn [negb]. rewrite andb_false_r. left. reflexivity.
    + assert (Hi : forall c', In r (dropped_rows env config c' (S k) l)).
      { intros c'. apply (IH c' (S k) n Hin Hn).
        replace (S k + n)%nat with (k + S n)%nat by lia. exact Hold. }
      destruct (_ && _); [apply Hi | right; apply Hi].
Qed.

(** Without an items bound, a row that is not too old when the loop looks at
    it goes into the document. *)
Lemma kept_rows_fresh env config c k l n r :
  tests_in_range env config k l ->
  days config <> -1 ->
  items config = -1 ->
  nth_error l n = Some r ->
  today env (k + n) - published r <= days config * usec_per_day ->
  In r (kept_rows env config c k l).
Proof.
  intros Hin Hd Hi. apply Z.eqb_neq in Hd.
  revert c k n Hin. induction l as [|x l IH]; intros c k n Hin Hn Hfresh.
  - destruct n; discriminate.
  - cbn [kept_rows].
    rewrite (keep_row_in_range env config k x l c Hin).
    apply tests_in_range_tail in Hin. rewrite Hd in *. rewrite Hi.
    rewrite Z.eqb_refl. cbn [negb andb] in *.
    destruct n as [|n]; simpl in Hn.
    + injection Hn as ->. rewrite Nat.add_0_r in Hfresh.
      assert (Hgt : (today env k - days config * usec_per_day >? published r) = false).
      { rewrite Z.gtb_ltb. apply Z.ltb_ge. lia. }
      rewrite Hgt. left. reflexivity.
    + assert (Hk : forall c', In r (kept_rows env config c' (S k) l)).
      { intros c'. apply (IH c' (S k) n Hin Hn).
        replace (S k + n)%nat with (k + S n)%nat by lia. exact Hfresh. }
      destruct (negb _); [right; apply Hk | apply Hk].
Qed.

(** With only an items bound [n >= 0], the loop keeps the first [n + 1]
    rows: a row is added as long as the number of items so far is at most
    [n]. *)
Lemma kept_rows_items_bound env config c k l :
  days config = -1 ->
  0 <= items config ->
  (c <= S (Z.to_nat (items config)))%nat ->
  kept_rows env config c k l = firstn (S (Z.to_nat (items config)) - c) l.
Proof.
  intros Hd Hi. revert c k.
  induction l as [|x l IH]; intros c k Hc.
  - now rewrite firstn_nil.
  - cbn [kept_rows].
    assert (Hne : (items config =? -1) = false) by (apply Z.eqb_neq; lia).
    unfold keep_row. rewrite Hd, Hne, Z.eqb_refl. cbn [negb].
    destruct (Z.of_nat c >? items config) eqn:E.
    + rewrite Z.gtb_ltb in E. apply Z.ltb_lt in E.
      assert (c = S (Z.to_nat (items config))) as -> by lia.
      rewrite IH by lia. rewrite !Nat.sub_diag. reflexivity.
    + rewrite Z.gtb_ltb in E. apply Z.ltb_ge in E.
      assert (Hlt : (c <= Z.to_nat (items config))%nat) by lia.
      rewrite IH by lia.
      rewrite (Nat.sub_succ_l c _ Hlt). reflexivity.
Qed.

(** ** on_process_end *)

Section Finalize.

Variables (env : Env) (raw : RawConfig) (w : World).

Let config := get_config raw.
Let fn := expanduser env (config_file config).

Hypothesis Hgen : rss2gen env = true.
Hypothesis Hlearn : opt_learn env = false.
Hypothesis Hfresh : is_written w (config_file config) = false.
Hypothesis Hloop :
  loop_completes env config (list_newest_first (config_file config) (db w)).

(** The part of [on_process_end] after the three early returns, when the
    loop completes: the table is committed, then the file is opened and the
    document written. *)
Lemma finalize_cases :
  exists lg,
    on_process_end env raw w
    = let w1 := {| db := store_after env config w; written := written w;
                   trace := trace w; log := lg |} in
      match open_w env fn with
      | Some e => Raise e w1
      | None =>
          let w2 := add_log (add_event w1 (Opened fn))
                            (LogVerbose ("Writing output rss to " ++ fn)%string) in
          match write_xml env fn (encoding config) (feed_document env config w) with
          | None =>
              Return (mark_written
                        (add_event w2 (Wrote fn (encoding config)
                                             (feed_document env config w)))
                        (config_file config))
          | Some LookupError =>
              Return (add_log w2 (LogCritical ("Unknown encoding "
                                               ++ encoding config)%string))
          | Some IOError =>
              Return (add_log w2 (LogCritical ("Unable to write " ++ fn)%string))
          | Some e => Raise e w2
          end
      end.
Proof.
  unfold on_process_end.
  rewrite Hgen, Hlearn. cbn [negb]. cbv zeta.
  fold config. rewrite Hfresh. fold fn.
  destruct (make_items_run env config
              (order_by_published_desc (filter_file (config_file config) (db w)))
              {| lp_items := []; lp_rows := db w; lp_log := log w; lp_reads := 0 |}
              (loop_completes_tests _ _ _ Hloop))
    as (st & Hrun & Hitems & Hrows).
  rewrite Hrun. exists (lp_log st).
  cbn [lp_items lp_rows lp_reads app List.length] in Hitems, Hrows.
  rewrite Hitems, Hrows. reflexivity.
Qed.

Lemma finalize_db :
  db (world_of (on_process_end env raw w)) = store_after env config w.
Proof.
  destruct finalize_cases as (lg & ->). cbv zeta.
  destruct (open_w env fn) as [e|]; [reflexivity|].
  destruct (write_xml env _ _ _) as [[]|]; reflexivity.
Qed.

Lemma finalize_open_fails e :
  open_w env fn = Some e ->
  exists w', on_process_end env raw w = Raise e w'
             /\ written w' = written w /\ trace w' = trace w.
Proof.
  intros Ho. destruct finalize_cases as (lg & ->). cbv zeta.
  rewrite Ho. eauto.
Qed.

Lemma finalize_written :
  open_w env fn = None ->
  write_xml env fn (encoding config) (feed_document env config w) = None ->
  exists w', on_process_end env raw w = Return w'
             /\ db w' = store_after env config w
             /\ written w' = config_file config :: written w
             /\ trace w' = trace w ++ [Opened fn;
                                       Wrote fn (encoding config)
                                             (feed_document env config w)].
Proof.
  intros Ho Hw. destruct finalize_cases as (lg & ->). cbv zeta.
  rewrite Ho, Hw.
  eexists. split; [reflexivity|].
  cbn [db written trace mark_written add_event add_log].
  repeat split. rewrite <- app_assoc. reflexivity.
Qed.

(** A write that fails with [LookupError] or [IOError] is logged and the
    handler returns; the destination is not marked and nothing was written. *)
Lemma finalize_write_fails e :
  open_w env fn = None ->
  write_xml env fn (encoding config) (feed_document env config w) = Some e ->
  e = LookupError \/ e = IOError ->
  exists w' msg, on_process_end env raw w = Return w'
             /\ db w' = store_after env config w
             /\ written w' = written w
             /\ trace w' = trace w ++ [Opened fn]
             /\ last (log w') (LogDebug EmptyString) = LogCritical msg.
Proof.
  intros Ho Hw He. destruct finalize_cases as (lg & ->). cbv zeta.
  rewrite Ho, Hw.
  destruct He as [-> | ->]; eexists; eexists; (split; [reflexivity|]);
    cbn [db written trace log add_event add_log]; repeat split;
    apply last_last.
Qed.

(** Any other exception of [write_xml] leaves the handler. *)
Lemma finalize_write_raises e :
  open_w env fn = None ->
  write_xml env fn (encoding config) (feed_document env config w) = Some e ->
  e <> LookupError -> e <> IOError ->
  exists w', on_process_end env raw w = Raise e w'
             /\ db w' = store_after env config w
             /\ written w' = written w
             /\ trace w' = trace w ++ [Opened fn].
Proof.
  intros Ho Hw H1 H2. destruct finalize_cases as (lg & ->). cbv zeta.
  rewrite Ho, Hw.
  destruct e; try contradiction; eexists; (split; [reflexivity|]);
    cbn [db written trace log add_event add_log]; repeat split.
Qed.

(** Once the loop completes and the file is opened, the medium shows it. *)
Lemma finalize_opens :
  open_w env fn = None ->
  exists evs, trace (world_of (on_process_end env raw w))
              = trace w ++ Opened fn :: evs.
Proof.
  intros Ho. destruct finalize_cases as (lg & ->). cbv zeta.
  rewrite Ho.
  destruct (write_xml env _ _ _) as [[]|];
    cbn [world_of trace mark_written add_event add_log];
    try (exists []; reflexivity).
  eexists. rewrite <- app_assoc. reflexivity.
Qed.

End Finalize.

Lemma items_newest_first_map l :
  newest_first l -> items_newest_first (map make_item l).
Proof.
  unfold newest_first, items_newest_first.
  induction 1 as [|x l Hs IH Hall]; simpl; constructor; auto.
  apply Forall_map. exact Hall.
Qed.

(** With distinct keys, the document holds the rows of the file that are
    left in the table, in the order of the query. *)
Lemma kept_rows_survivors env config w :
  loop_completes env config (list_newest_first (config_file config) (db w)) ->
  NoDup (map id (db w)) ->
  kept_rows env config 0 0 (list_newest_first (config_file config) (db w))
  = list_newest_first (config_file config) (store_after env config w).
Proof.
  intros Hloop Hnd. unfold store_after, delete_all.
  set (l := list_newest_first (config_file config) (db w)) in *.
  rewrite <- (kept_rows_filter env config 0 0 l)
    by (try apply loop_completes_tests; try apply list_newest_first_NoDup; assumption).
  unfold list_newest_first, filter_file.
  rewrite filter_comm, <- filter_order_by. reflexivity.
Qed.

Lemma count_writes_app t t' :
  count_writes (t ++ t') = (count_writes t + count_writes t')%nat.
Proof.
  induction t as [|[] t IH]; simpl; auto.
Qed.

Lemma count_opens_app t t' :
  count_opens (t ++ t') = (count_opens t + count_opens t')%nat.
Proof.
  induction t as [|[] t IH]; simpl; auto.
Qed.

Lemma is_written_mark w key : is_written (mark_written w key) key = true.
Proof.
  unfold is_written, mark_written. simpl. now rewrite String.eqb_refl.
Qed.

(** C3, the code at the failing input: three rows of [feed.rss], no age
    bound and [items] = 1.  The row count test [len(rss_items) > 1] is still
    false when one item is in the list, so the document gets two entries and
    two rows stay in the table. *)
Theorem C3_items_bound_keeps_one_more :
  exists w' doc,
    on_process_end env_ok (config_bounds (-1) 1 "utf-8") (world_with aged_rows)
    = Return w'
    /\ trace w' = [Opened feed; Wrote feed "utf-8" doc]
    /\ map item_title (rss_items doc) = ["new"; "recent"]%string
    /\ List.length (rss_items doc) = 2%nat
    /\ map title (db w') = ["recent"; "new"]%string.
Proof.
  eexists. eexists. split; [vm_compute; reflexivity|].
  repeat split.
Qed.

(** C4 (as amended).  Take a call of [on_process_end] for a destination
    that is not yet marked, whose loop completes and which gets the file
    opened.  When the document is written, the call performs one write and
    the destination is marked as written.  From any state in which the
    destination is marked, every call of [on_process_end] for it, whatever
    its config and environment, returns without touching the table, the
    marks or the medium.  When the write fails with [LookupError] or
    [IOError], the call returns with the destination unmarked and no
    document written, and a later call for the destination that gets as far
    opens the file again. *)
Theorem C4_one_write_then_skipped (env : Env) (raw : RawConfig) (w : World) :
  let config := get_config raw in
  let f := config_file config in
  let fn := expanduser env f in
  rss2gen env = true ->
  opt_learn env = false ->
  is_written w f = false ->
  loop_completes env config (list_newest_first f (db w)) ->
  open_w env fn = None ->
  (write_xml env fn (encoding config) (feed_document env config w) = None ->
   exists w1,
     on_process_end env raw w = Return w1
     /\ is_written w1 f = true
     /\ trace w1 = trace w ++ [Opened fn;
                               Wrote fn (encoding config) (feed_document env config w)]
     /\ count_writes (trace w1) = S (count_writes (trace w))
     /\ count_opens (trace w1) = S (count_opens (trace w)))
  /\ (forall env' raw' w1,
        config_file (get_config raw') = f ->
        is_written w1 f = true ->
        exists w2,
          on_process_end env' raw' w1 = Return w2
          /\ db w2 = db w1 /\ written w2 = written w1 /\ trace w2 = trace w1)
  /\ (forall e,
        write_xml env fn (encoding config) (feed_document env config w) = Some e ->
        e = LookupError \/ e = IOError ->
        exists w1,
          on_process_end env raw w = Return w1
          /\ is_written w1 f = false
          /\ trace w1 = trace w ++ [Opened fn]
          /\ count_writes (trace w1) = count_writes (trace w)
          /\ forall env' raw',
               config_file (get_config raw') = f ->
               rss2gen env' = true ->
               opt_learn env' = false ->
               loop_completes env' (get_config raw') (list_newest_first f (db w1)) ->
               open_w env' (expanduser env' f) = None ->
               exists evs,
                 trace (world_of (on_process_end env' raw' w1))
                 = trace w1 ++ Opened (expanduser env' f) :: evs).
Proof.
  intros config f fn Hgen Hlearn Hfresh Hloop Ho. split; [|split].
  - intros Hw.
    destruct (finalize_written env raw w Hgen Hlearn Hfresh Hloop Ho Hw)
      as (w1 & Hrun & Hdb & Hwr & Htr).
    exists w1. repeat split; auto.
    + unfold is_written. rewrite Hwr. simpl. fold config f.
      now rewrite String.eqb_refl.
    + rewrite Htr, count_writes_app. simpl. lia.
    + rewrite Htr, count_opens_app. simpl. lia.
  - intros env' raw' w1 Hf Hmarked. unfold on_process_end.
    destruct (rss2gen env'); cbn [negb]; [|eauto].
    destruct (opt_learn env'); [eauto|].
    cbv zeta. rewrite Hf, Hmarked. eexists. split; [reflexivity|]. auto.
  - intros e Hw He.
    destruct (finalize_write_fails env raw w Hgen Hlearn Hfresh Hloop e Ho Hw He)
      as (w1 & msg & Hrun & Hdb & Hwr & Htr & _).
    exists w1. split; [exact Hrun|].
    assert (Hun : is_written w1 f = false).
    { unfold is_written in *. rewrite Hwr. exact Hfresh. }
    split; [exact Hun|]. split; [exact Htr|]. split.
    + rewrite Htr, count_writes_app. simpl. lia.
    + intros env' raw' Hf Hgen' Hlearn' Hloop' Ho'.
      rewrite <- Hf in Hun, Hloop', Ho' |- *.
      exact (finalize_opens env' raw' w1 Hgen' Hlearn' Hun Hloop' Ho').
Qed.

(** C5 (as amended).  Take a call of [on_process_end] for a destination
    that is not yet marked, with an age bound [days] other than -1 for which
    the cutoff, the clock reading minus [days] days, is a date in range at
    every row the loop examines.  Every row of the destination that is older
    than [days] days when the loop looks at it is gone from the table
    afterwards; without an items bound a row that is not older stays.  When
    the file is opened and the write succeeds, the document written holds
    exactly the rows of the destination that are left in the table, newest
    first. *)
Theorem C5_age_bound_evicts (env : Env) (raw : RawConfig) (w : World) :
  let config := get_config raw in
  let f := config_file config in
  let fn := expanduser env f in
  let w' := world_of (on_process_end env raw w) in
  rss2gen env = true ->
  opt_learn env = false ->
  is_written w f = false ->
  days config <> -1 ->
  (forall k, (k < List.length (list_newest_first f (db w)))%nat ->
             minus_days (today env k) (days config) <> None) ->
  NoDup (map id (db w)) ->
  (forall k r,
      nth_error (list_newest_first f (db w)) k = Some r ->
      today env k - published r > days config * usec_per_day ->
      ~ In r (db w'))
  /\ (items config = -1 ->
      forall k r,
        nth_error (list_newest_first f (db w)) k = Some r ->
        today env k - published r <= days config * usec_per_day ->
        In r (db w'))
  /\ (open_w env fn = None ->
      write_xml env fn (encoding config) (feed_document env config w) = None ->
      exists doc,
        on_process_end env raw w = Return w'
        /\ trace w' = trace w ++ [Opened fn; Wrote fn (encoding config) doc]
        /\ rss_items doc = map make_item (list_newest_first f (db w'))
        /\ items_newest_first (rss_items doc)).
Proof.
  intros config f fn w' Hgen Hlearn Hfresh Hdays Hrange Hnd.
  assert (Hloop : loop_completes env config (list_newest_first f (db w)))
    by (right; exact Hrange).
  assert (Htests := loop_completes_tests _ _ _ Hloop).
  assert (Hdb : db w' = store_after env config w)
    by (apply finalize_db; assumption).
  assert (Hsurv := kept_rows_survivors env config w Hloop Hnd).
  fold f in Hsurv.
  split; [|split].
  - intros k r Hk Hold Hin. rewrite Hdb in Hin.
    unfold store_after, delete_all in Hin. apply filter_In in Hin.
    destruct Hin as [_ Hkeep].
    rewrite mem_id_In in Hkeep; [discriminate|].
    eapply dropped_rows_old; eauto.
  - intros Hitems k r Hk Hfr.
    assert (Hin : In r (kept_rows env config 0 0 (list_newest_first f (db w))))
      by (eapply kept_rows_fresh; eauto).
    rewrite Hsurv in Hin. rewrite Hdb.
    eapply Permutation_in in Hin; [|apply Permutation_sym, order_by_perm].
    unfold filter_file in Hin. apply filter_In in Hin. tauto.
  - intros Ho Hw.
    destruct (finalize_written env raw w Hgen Hlearn Hfresh Hloop Ho Hw)
      as (w1 & Hrun & _ & _ & Htr).
    assert (Hw1 : w' = w1) by (unfold w'; rewrite Hrun; reflexivity).
    exists (feed_document env config w).
    rewrite Hw1 at 1 2. repeat split; auto.
    + rewrite Hdb. unfold feed_document. cbn [rss_items]. fold f.
      now rewrite Hsurv.
    + unfold feed_document. cbn [rss_items]. fold f. rewrite Hsurv.
      apply items_newest_first_map, order_by_sorted.
Qed.

(** C6, the code at the failing input: the path of the destination cannot be
    opened for writing.  [open(fn, 'w')] stands before the [try], so its
    [IOError] leaves [on_process_end]; nothing is logged as critical. *)
Theorem C6_unwritable_path_propagates :
  exists w',
    on_process_end env_unwritable (config_bounds 7 (-1) "utf-8") (world_with aged_rows)
    = Raise IOError w'
    /\ existsb is_critical (log w') = false
    /\ is_written w' feed = false.
Proof.
  eexists. split; [vm_compute; reflexivity|]. split; reflexivity.
Qed.

(** C4, witness: the three sample rows; with everything outside the plugin
    working the document is written once, and with an unknown encoding the
    destination stays unmarked. *)
Lemma C4_witness :
  (exists w1,
      on_process_end env_ok (config_bounds 7 (-1) "utf-8") (world_with aged_rows)
      = Return w1
      /\ is_written w1 feed = true
      /\ count_writes (trace w1) = 1%nat
      /\ count_opens (trace w1) = 1%nat)
  /\ (forall env' raw' w1,
        config_file (get_config raw') = feed ->
        is_written w1 feed = true ->
        exists w2,
          on_process_end env' raw' w1 = Return w2
          /\ db w2 = db w1 /\ written w2 = written w1 /\ trace w2 = trace w1)
  /\ (exists w1,
        on_process_end env_unknown_encoding (config_bounds 7 (-1) "bogus")
          (world_with aged_rows) = Return w1
        /\ is_written w1 feed = false
        /\ trace w1 = [Opened feed]).
Proof.
  assert (Hloop : forall env raw,
            today env = (fun _ => day 100) -> days (get_config raw) = 7 ->
            loop_completes env (get_config raw)
              (list_newest_first feed (db (world_with aged_rows)))).
  { intros env raw Ht Hd. right. intros k _. rewrite Ht, Hd. discriminate. }
  destruct (C4_one_write_then_skipped env_ok (config_bounds 7 (-1) "utf-8")
              (world_with aged_rows) eq_refl eq_refl eq_refl
              (Hloop env_ok (config_bounds 7 (-1) "utf-8") eq_refl eq_refl)
              eq_refl) as (Hok & Hskip & _).
  destruct (C4_one_write_then_skipped env_unknown_encoding
              (config_bounds 7 (-1) "bogus")
              (world_with aged_rows) eq_refl eq_refl eq_refl
              (Hloop env_unknown_encoding (config_bounds 7 (-1) "bogus")
                 eq_refl eq_refl)
              eq_refl) as (_ & _ & Hfail).
  split; [|split].
  - destruct (Hok eq_refl) as (w1 & H1 & H2 & _ & H4 & H5).
    exists w1. repeat split; assumption.
  - exact Hskip.
  - destruct (Hfail LookupError eq_refl (or_introl eq_refl))
      as (w1 & H1 & H2 & H3 & _).
    exists w1. repeat split; assumption.
Defined.

(** C4, counterexample to the claim as stated: the encoding is unknown, so
    the write of the first call fails and the destination stays unmarked; the
    second call opens the file and tries again.  After the two calls the file
    was opened twice and no document was written. *)
Lemma C4_counterexample :
  exists w1 w2,
    on_process_end env_unknown_encoding (config_bounds 7 (-1) "bogus") empty_world
    = Return w1
    /\ on_process_end env_unknown_encoding (config_bounds 7 (-1) "bogus") w1
       = Return w2
    /\ trace w2 = [Opened feed; Opened feed]
    /\ count_opens (trace w2) = 2%nat
    /\ count_writes (trace w2) = 0%nat
    /\ is_written w2 feed = false.
Proof.
  eexists. eexists. split; [vm_compute; reflexivity|].
  split; [vm_compute; reflexivity|]. repeat split.
Qed.

(** C5, witness: rows aged 10, 3 and 1 days on day 100 and [days] = 7.  The
    row aged 10 days, third in the query, is deleted; the document holds the
    rows left in the table, newest first. *)
Lemma C5_witness :
  let raw := config_bounds 7 (-1) "utf-8" in
  let w := world_with aged_rows in
  let w' := world_of (on_process_end env_ok raw w) in
  ~ In (row 1 "old" feed (day 90)) (db w')
  /\ In (row 2 "recent" feed (day 97)) (db w')
  /\ exists doc,
       on_process_end env_ok raw w = Return w'
       /\ trace w' = trace w ++ [Opened feed; Wrote feed "utf-8" doc]
       /\ rss_items doc = map make_item (list_newest_first feed (db w'))
       /\ items_newest_first (rss_items doc).
Proof.
  intros raw w w'.
  assert (Hdays : days (get_config raw) <> -1) by discriminate.
  assert (Hrange : forall k,
            (k < List.length (list_newest_first feed (db w)))%nat ->
            minus_days (today env_ok k) (days (get_config raw)) <> None)
    by (intros k _; discriminate).
  assert (Hnd : NoDup (map id (db w))).
  { repeat constructor; simpl; intuition discriminate. }
  destruct (C5_age_bound_evicts env_ok raw w eq_refl eq_refl eq_refl Hdays Hrange Hnd)
    as (Hold & Hfresh & Hdoc).
  split; [|split].
  - apply (Hold 2%nat); reflexivity.
  - apply (Hfresh eq_refl 1%nat); [reflexivity | discriminate].
  - apply Hdoc; reflexivity.
Defined.

(** C5, counterexample to the claim as stated: an age bound for which the
    cutoff is no date.  With [days] = -4000000 every sample row is older than
    [days] days, but the cutoff lies after [datetime.max]: the age test
    raises [OverflowError] at the first row, no row is deleted and no
    document is written.  With [days] = 4000000 the cutoff lies before
    [datetime.min] and the call ends in the same way. *)
Lemma C5_counterexample :
  days (get_config (config_bounds (-4000000) (-1) "utf-8")) <> -1
  /\ (forall r, In r aged_rows ->
        today env_ok 0 - published r
        > days (get_config (config_bounds (-4000000) (-1) "utf-8")) * usec_per_day)
  /\ (exists w',
        on_process_end env_ok (config_bounds (-4000000) (-1) "utf-8")
          (world_with aged_rows) = Raise OverflowError w'
        /\ db w' = aged_rows /\ trace w' = [])
  /\ (exists w',
        on_process_end env_ok (config_bounds 4000000 (-1) "utf-8")
          (world_with aged_rows) = Raise OverflowError w'
        /\ db w' = aged_rows /\ trace w' = []).
Proof.
  split; [discriminate|]. split.
  - intros r [<-|[<-|[<-|[]]]]; reflexivity.
  - split; eexists; (split; [vm_compute; reflexivity|]); split; reflexivity.
Qed.

(** ** on_task_exit *)

Lemma save_entries_clock env t u config accepted w :
  save_entries (with_clock env t u) config accepted w
  = save_entries env config accepted w.
Proof.
  revert w. induction accepted as [|e rest IH]; intros w; auto.
  cbn [save_entries].
  change (entry_render (with_clock env t u)) with (entry_render env).
  change (render_description (with_clock env t u)) with (render_description env).
  destruct (entry_render env e (config_title config)); auto.
  destruct (render_description env (template config) e); apply IH.
Qed.

(** The table after one more row was saved. *)
Lemma db_after_save env w rec t d l f :
  db (set_db (add_log w rec) (session_add env t d l f (db (add_log w rec))))
  = db w ++ [{| id := next_id (db w); title := t; description := d; link := l;
                rsslink := None; file := f; published := schema_default env |}].
Proof. reflexivity. Qed.

(** The rows saved by the loop are appended to the table; each gets the
    column default as [published]. *)
Lemma next_id_above rows r : In r rows -> id r < next_id rows.
Proof.
  unfold next_id. induction rows as [|x l IH]; [intros []|].
  cbn [fold_right].
  intros [<-|Hin]; [lia|]. specialize (IH Hin). lia.
Qed.

(** A row the loop saves: it has the column default as [published], the file
    of the config, and a key above the keys of the rows that were there. *)
Lemma save_entries_rows env config accepted w :
  exists news,
    db (world_of (save_entries env config accepted w)) = db w ++ news
    /\ Forall (fun r => published r = schema_default env
                        /\ file r = config_file config
                        /\ forall o, In o (db w) -> id o < id r) news
    /\ (forall w', save_entries env config accepted w = Return w' ->
                   List.length news = List.length accepted).
Proof.
  revert w. induction accepted as [|e rest IH]; intros w.
  - exists []. simpl. rewrite app_nil_r. auto.
  - cbn [save_entries].
    destruct (entry_render env e (config_title config)) as [t|ex].
    + assert (Hstep : forall w0 rec d,
        db w0 = db w ->
        exists news,
          db (world_of (save_entries env config rest
                (set_db (add_log w0 rec)
                   (session_add env t d (select_link e (config_link config))
                      (config_file config) (db (add_log w0 rec))))))
          = db w ++ news
          /\ Forall (fun r => published r = schema_default env
                              /\ file r = config_file config
                              /\ forall o, In o (db w) -> id o < id r) news
          /\ (forall w', save_entries env config rest
                (set_db (add_log w0 rec)
                   (session_add env t d (select_link e (config_link config))
                      (config_file config) (db (add_log w0 rec)))) = Return w' ->
              List.length news = S (List.length rest))).
      { intros w0 rec d Hw0.
        match goal with
        | |- context [save_entries env config rest ?w1] =>
            destruct (IH w1) as (news & Hdb & Hall & Hlen)
        end.
        rewrite db_after_save, Hw0 in Hdb, Hall.
        eexists (_ :: news). split; [|split].
        - rewrite Hdb, <- app_assoc. reflexivity.
        - constructor.
          + split; [reflexivity|]. split; [reflexivity|].
            intros o Ho. cbn [id]. now apply next_id_above.
          + eapply Forall_impl; [|exact Hall]. cbv beta.
            intros r (Hp & Hf & Hid). split; [exact Hp|]. split; [exact Hf|].
            intros o Ho. apply Hid. apply in_or_app. left. exact Ho.
        - intros w' Hr. simpl. f_equal. eapply Hlen, Hr. }
      destruct (render_description env (template config) e) as [d|ex].
      * apply Hstep. reflexivity.
      * apply Hstep. reflexivity.
    + exists []. simpl. rewrite app_nil_r. repeat split; auto. discriminate.
Qed.

(** When every title renders, the loop returns and has saved one row for
    each accepted entry, in order. *)
Lemma save_entries_saved env config accepted w :
  (forall e, In e accepted ->
             exists t, entry_render env e (config_title config) = Ok t) ->
  exists w' news,
    save_entries env config accepted w = Return w'
    /\ db w' = db w ++ news
    /\ Forall2 (saved_as env config) accepted news.
Proof.
  revert w. induction accepted as [|e rest IH]; intros w Htitles.
  - exists w, []. simpl. rewrite app_nil_r. auto.
  - cbn [save_entries].
    destruct (Htitles e (or_introl eq_refl)) as (t & Ht). rewrite Ht.
    assert (Hrest : forall e', In e' rest ->
              exists t', entry_render env e' (config_title config) = Ok t')
      by (intros; apply Htitles; right; assumption).
    assert (Hstep : forall w0 rec d,
      db w0 = db w ->
      d = match render_description env (template config) e with
          | Ok d' => d'
          | Err _ => (entry_title e ++ render_error_suffix)%string
          end ->
      exists w' news,
        save_entries env config rest
          (set_db (add_log w0 rec)
             (session_add env t d (select_link e (config_link config))
                (config_file config) (db (add_log w0 rec)))) = Return w'
        /\ db w' = db w ++ news
        /\ Forall2 (saved_as env config) (e :: rest) news).
    { intros w0 rec d Hw0 Hd.
      match goal with
      | |- context [save_entries env config rest ?w1] =>
          destruct (IH w1 Hrest) as (w' & news & Hrun & Hdb & Hall)
      end.
      rewrite db_after_save, Hw0 in Hdb.
      exists w'. eexists (_ :: news). split; [exact Hrun|]. split.
      - rewrite Hdb, <- app_assoc. reflexivity.
      - constructor; [|exact Hall].
        unfold saved_as. cbn [title link rsslink file published description].
        repeat split; auto. }
    destruct (render_description env (template config) e) as [d|ex].
    + apply Hstep; reflexivity.
    + apply Hstep; reflexivity.
Qed.

Lemma delete_rows_delete_all ds rows :
  fold_left (fun acc item => session_delete item acc) ds rows = delete_all ds rows.
Proof.
  revert rows. induction ds as [|d ds IH]; intros rows; cbn [fold_left].
  - unfold delete_all. simpl. induction rows; simpl; congruence.
  - rewrite IH, delete_all_cons. reflexivity.
Qed.

(** The DELETEs of the rows marked for deletion leave the rows saved
    meanwhile: the table is the emptied backlog followed by the new rows. *)
Lemma flush_deletes_db f rows news w' :
  db w' = rows ++ news ->
  Forall (fun r => forall o, In o rows -> id o < id r) news ->
  db (flush_deletes (filter_file f rows) w') = clear_history f rows ++ news.
Proof.
  intros Hdb Hfresh. unfold flush_deletes, clear_history. cbn [db set_db].
  rewrite Hdb, !delete_rows_delete_all. unfold delete_all.
  rewrite filter_app. f_equal. clear Hdb.
  induction Hfresh as [|r l Hr Hl IH]; auto.
  cbn [filter]. rewrite IH.
  assert (Hm : mem_id r (filter_file f rows) = false).
  { unfold mem_id. destruct (existsb _ _) eqn:E; auto.
    apply existsb_exists in E. destruct E as (d & Hd & Heq).
    apply Z.eqb_eq in Heq. unfold filter_file in Hd. apply filter_In in Hd.
    destruct Hd as [Hd _]. specialize (Hr d Hd). lia. }
  rewrite Hm. reflexivity.
Qed.

(** [on_task_exit] past its two early exits: the loop that saves the entries,
    followed with history off by the deletion of the backlog of the file. *)
Lemma on_task_exit_run env raw accepted w :
  rss2gen env = true ->
  opt_test env = false ->
  let config := get_config raw in
  exists w0,
    db w0 = db w /\ written w0 = written w /\ trace w0 = trace w
    /\ on_task_exit env raw accepted w
       = if negb (history config) then
           match save_entries env config accepted w0 with
           | Return w' =>
               Return (flush_deletes (filter_file (config_file config) (db w)) w')
           | Raise e w' =>
               Raise e (flush_deletes (filter_file (config_file config) (db w)) w')
           end
         else save_entries env config accepted w0.
Proof.
  intros Hgen Htest config. unfold on_task_exit.
  rewrite Hgen, Htest. cbn [negb]. cbv zeta. fold config.
  destruct (history config); cbn [negb].
  - exists w. repeat split.
  - eexists. split; [|split; [|split]]; [| | |reflexivity]; reflexivity.
Qed.

(** The table [on_task_exit] leaves: the backlog followed by the rows saved. *)
Lemma on_task_exit_new_rows env raw accepted w :
  exists news,
    db (world_of (on_task_exit env raw accepted w)) = backlog env raw w ++ news
    /\ Forall (fun r => published r = schema_default env
                        /\ file r = config_file (get_config raw)) news
    /\ (forall w', on_task_exit env raw accepted w = Return w' ->
                   opt_test env = false ->
                   List.length news = List.length accepted).
Proof.
  unfold backlog.
  destruct (rss2gen env) eqn:Hgen; cbn [negb andb].
  2:{ exists []. unfold on_task_exit. rewrite Hgen. simpl. rewrite app_nil_r.
      repeat split; auto. discriminate. }
  destruct (opt_test env) eqn:Htest; cbn [negb andb].
  { exists []. unfold on_task_exit. rewrite Hgen, Htest. simpl.
    rewrite app_nil_r. repeat split; auto. discriminate. }
  destruct (on_task_exit_run env raw accepted w Hgen Htest)
    as (w0 & Hw0 & _ & _ & ->).
  destruct (save_entries_rows env (get_config raw) accepted w0)
    as (news & Hdb & Hall & Hlen).
  rewrite Hw0 in Hdb, Hall.
  assert (Hpf : Forall (fun r => published r = schema_default env
                                 /\ file r = config_file (get_config raw)) news)
    by (eapply Forall_impl; [|exact Hall]; cbv beta; tauto).
  assert (Hfr : Forall (fun r => forall o, In o (db w) -> id o < id r) news)
    by (eapply Forall_impl; [|exact Hall]; cbv beta; tauto).
  exists news.
  destruct (history (get_config raw)); cbn [negb].
  - split; [exact Hdb|]. split; [exact Hpf|]. intros w' Hr _. eapply Hlen, Hr.
  - destruct (save_entries env (get_config raw) accepted w0) as [w1|e w1];
      cbn [world_of] in *.
    + split; [apply flush_deletes_db; assumption|]. split; [exact Hpf|].
      intros w' _ _. eapply Hlen. reflexivity.
    + split; [apply flush_deletes_db; assumption|]. split; [exact Hpf|].
      intros w' Hr. discriminate.
Qed.

Lemma on_task_exit_clock env t u raw accepted w :
  on_task_exit (with_clock env t u) raw accepted w = on_task_exit env raw accepted w.
Proof.
  unfold on_task_exit.
  change (rss2gen (with_clock env t u)) with (rss2gen env).
  change (opt_test (with_clock env t u)) with (opt_test env).
  destruct (rss2gen env); cbn [negb]; auto.
  destruct (opt_test env); auto.
  cbv zeta. rewrite !save_entries_clock. reflexivity.
Qed.

Lemma on_task_exit_rows env raw accepted w :
  exists news,
    db (world_of (on_task_exit env raw accepted w)) = backlog env raw w ++ news
    /\ Forall (fun r => published r = schema_default env) news
    /\ (forall w', on_task_exit env raw accepted w = Return w' ->
                   opt_test env = false ->
                   List.length news = List.length accepted).
Proof.
  destruct (on_task_exit_new_rows env raw accepted w) as (news & Hdb & Hall & Hlen).
  exists news. split; [exact Hdb|]. split; [|exact Hlen].
  eapply Forall_impl; [|exact Hall]. cbv beta. tauto.
Qed.

(** When every title renders, [on_task_exit] returns and has saved one row
    for each accepted entry, in order, after the backlog. *)
Lemma on_task_exit_saved env raw accepted w :
  rss2gen env = true ->
  opt_test env = false ->
  (forall e, In e accepted ->
             exists t, entry_render env e (config_title (get_config raw)) = Ok t) ->
  exists w' news,
    on_task_exit env raw accepted w = Return w'
    /\ db w' = backlog env raw w ++ news
    /\ Forall2 (saved_as env (get_config raw)) accepted news.
Proof.
  intros Hgen Htest Htitles.
  destruct (on_task_exit_new_rows env raw accepted w) as (news & Hdb & _ & _).
  destruct (on_task_exit_run env raw accepted w Hgen Htest)
    as (w0 & Hw0 & _ & _ & Hrun).
  destruct (save_entries_saved env (get_config raw) accepted w0 Htitles)
    as (w1 & news1 & Hsave & Hdb1 & Hall).
  destruct (save_entries_rows env (get_config raw) accepted w0)
    as (news2 & Hdb2 & Hall2 & _).
  rewrite Hsave in Hdb2. cbn [world_of] in Hdb2.
  assert (news2 = news1) by (rewrite Hdb1 in Hdb2; eapply app_inv_head; eauto).
  subst news2. rewrite Hw0 in Hdb1, Hall2.
  assert (Hfr : Forall (fun r => forall o, In o (db w) -> id o < id r) news1)
    by (eapply Forall_impl; [|exact Hall2]; cbv beta; tauto).
  rewrite Hsave in Hrun. unfold backlog. rewrite Hgen, Htest. cbn [negb andb].
  destruct (history (get_config raw)); cbn [negb] in *.
  - exists w1, news1. repeat split; assumption.
  - eexists. exists news1. split; [exact Hrun|]. split; [|exact Hall].
    apply flush_deletes_db; assumption.
Qed.

Lemma same_published_newest_first c l :
  Forall (fun r => published r = c) l -> newest_first l.
Proof.
  unfold newest_first. induction 1 as [|x l Hx Hall IH]; constructor; auto.
  eapply Forall_impl; [|exact Hall]. simpl. intros; lia.
Qed.

(** C9 (as amended).  When the title of every accepted entry renders,
    [on_task_exit] returns, and it has saved one row for each accepted entry,
    in order: the description of the row is the rendered description, and
    when the rendering of the description fails, with whatever exception, it
    is the title of the entry followed by " - (Render Error)".  (The
    rendering of the title is outside the [try].) *)
Theorem C9_description_failure_recovered (env : Env) (raw : RawConfig)
    (accepted : list Entry) (w : World) :
  let config := get_config raw in
  rss2gen env = true ->
  opt_test env = false ->
  (forall e, In e accepted ->
             exists t, entry_render env e (config_title config) = Ok t) ->
  exists w' news,
    on_task_exit env raw accepted w = Return w'
    /\ db w' = backlog env raw w ++ news
    /\ Forall2
         (fun e r =>
            file r = config_file config
            /\ (forall d, render_description env (template config) e = Ok d ->
                          description r = d)
            /\ (forall ex, render_description env (template config) e = Err ex ->
                           description r
                           = (entry_title e ++ " - (Render Error)")%string))
         accepted news.
Proof.
  intros config Hgen Htest Htitles.
  destruct (on_task_exit_saved env raw accepted w Hgen Htest Htitles)
    as (w' & news & Hrun & Hdb & Hall).
  exists w', news. split; [exact Hrun|]. split; [exact Hdb|].
  eapply Forall2_impl; [|exact Hall].
  intros e r (_ & _ & _ & Hfile & _ & Hdesc). split; [exact Hfile|].
  fold config in Hdesc. rewrite Hdesc. split.
  - intros d ->. reflexivity.
  - intros ex ->. reflexivity.
Qed.

(** C9, witness: the description template fails for the entry [episode]; the
    row is saved with the description "episode - (Render Error)". *)
Lemma C9_witness :
  exists w' news,
    on_task_exit env_description_fails (ConfigText feed) [episode] empty_world
    = Return w'
    /\ db w' = backlog env_description_fails (ConfigText feed) empty_world ++ news
    /\ Forall2
         (fun e r =>
            file r = feed
            /\ (forall d, render_description env_description_fails "default" e = Ok d ->
                          description r = d)
            /\ (forall ex, render_description env_description_fails "default" e = Err ex ->
                           description r
                           = (entry_title e ++ " - (Render Error)")%string))
         [episode] news.
Proof.
  apply (C9_description_failure_recovered env_description_fails (ConfigText feed)
           [episode] empty_world eq_refl eq_refl).
  intros e _. exists (entry_title e). reflexivity.
Defined.

(** C9, counterexample to the claim as stated: the title template fails for
    the entry [episode].  [entry.render] is called outside the [try], so the
    exception leaves [on_task_exit] and no row is saved. *)
Lemma C9_counterexample :
  on_task_exit env_title_fails (ConfigText feed) [episode] empty_world
  = Raise RenderError empty_world
  /\ db (world_of (on_task_exit env_title_fails (ConfigText feed) [episode] empty_world))
     = [].
Proof.
  split; reflexivity.
Qed.

(** C10.  The clock readings at the time of a call of [on_task_exit] have
    no effect on what it does.  Every row it saves gets as [published] the
    column default, the value of [utcnow()] when the class [RSSEntry] was
    defined.  So the rows saved by two calls in one process (the same
    default) all have the same [published], and every arrangement of them is
    ordered newest first: the ordering of the query does not tell which was
    saved first. *)
Theorem C10_published_is_column_default (env1 env2 : Env) (raw1 raw2 : RawConfig)
    (acc1 acc2 : list Entry) (w : World) :
  schema_default env1 = schema_default env2 ->
  let w1 := world_of (on_task_exit env1 raw1 acc1 w) in
  let w2 := world_of (on_task_exit env2 raw2 acc2 w1) in
  (forall t u,
      on_task_exit (with_clock env1 t u) raw1 acc1 w = on_task_exit env1 raw1 acc1 w)
  /\ exists news1 news2,
       db w1 = backlog env1 raw1 w ++ news1
       /\ db w2 = backlog env2 raw2 w1 ++ news2
       /\ (forall w', on_task_exit env1 raw1 acc1 w = Return w' ->
                      opt_test env1 = false ->
                      List.length news1 = List.length acc1)
       /\ (forall w', on_task_exit env2 raw2 acc2 w1 = Return w' ->
                      opt_test env2 = false ->
                      List.length news2 = List.length acc2)
       /\ Forall (fun r => published r = schema_default env1) (news1 ++ news2)
       /\ (forall r r', In r (news1 ++ news2) -> In r' (news1 ++ news2) ->
                        published r = published r')
       /\ (forall l, Permutation l (news1 ++ news2) -> newest_first l).
Proof.
  intros Hsame w1 w2. split; [intros; apply on_task_exit_clock|].
  destruct (on_task_exit_rows env1 raw1 acc1 w) as (news1 & Hdb1 & Hall1 & Hlen1).
  destruct (on_task_exit_rows env2 raw2 acc2 w1) as (news2 & Hdb2 & Hall2 & Hlen2).
  rewrite <- Hsame in Hall2.
  assert (Hall : Forall (fun r => published r = schema_default env1) (news1 ++ news2))
    by (apply Forall_app; split; assumption).
  exists news1, news2. repeat split; auto.
  - intros r r' Hr Hr'. rewrite Forall_forall in Hall.
    rewrite (Hall r Hr), (Hall r' Hr'). reflexivity.
  - intros l Hperm. apply (same_published_newest_first (schema_default env1)).
    eapply Permutation_Forall; [apply Permutation_sym, Hperm | exact Hall].
Qed.

(** C10, witness: two calls that each save the entry [episode], the second
    with a failing description template. *)
Lemma C10_witness :
  let w1 := world_of (on_task_exit env_ok (ConfigText feed) [episode] empty_world) in
  let w2 := world_of (on_task_exit env_description_fails (ConfigText feed) [episode] w1) in
  map published (db w2) = [day 50; day 50]
  /\ exists news1 news2,
       db w1 = backlog env_ok (ConfigText feed) empty_world ++ news1
       /\ db w2 = backlog env_description_fails (ConfigText feed) w1 ++ news2
       /\ (forall l, Permutation l (news1 ++ news2) -> newest_first l).
Proof.
  intros w1 w2. split; [reflexivity|].
  destruct (proj2 (C10_published_is_column_default env_ok env_description_fails
                     (ConfigText feed) (ConfigText feed) [episode] [episode]
                     empty_world eq_refl))
    as (news1 & news2 & H1 & H2 & _ & _ & _ & _ & Hperm).
  exists news1, news2. repeat split; assumption.
Defined.

(** ** A scenario of the specification, run on the model *)

(** Scenario 5: rows aged 10, 3 and 1 days, [days] = 7 and no items bound.
    The oldest row is deleted and the document lists the other two, newest
    first. *)
Example scenario_age_bound :
  exists w' doc,
    on_process_end env_ok (config_bounds 7 (-1) "utf-8") (world_with aged_rows)
    = Return w'
    /\ trace w' = [Opened feed; Wrote feed "utf-8" doc]
    /\ map item_title (rss_items doc) = ["new"; "recent"]%string
    /\ map title (db w') = ["recent"; "new"]%string.
Proof.
  eexists. eexists. split; [vm_compute; reflexivity|]. repeat split.
Qed.

End RssProps.

(* ================================================================== *)
(** * Further properties of content_filter.py *)
(* ================================================================== *)

Module FilterExtra.
Import ContentFilter FilterData FilterMore FilterProps.
Local Open Scope list_scope.

Section Matcher.

Variable fnmatch : string -> string -> bool.

Lemma get_config_as_lists raw : get_config (as_lists raw) = get_config raw.
Proof.
  destruct raw as [[[]|] [[]|] [[]|] s]; reflexivity.
Qed.

(** X1.  A text under [require], [require_all] or [reject] means the same as
    the list of that one text: [process_entry], the loop body of
    [on_task_modify] and [on_task_modify] itself give the same result on the
    config and on the config with every text wrapped into a list. *)
Theorem X1_text_is_singleton_list (raw : RawConfig) (e : Entry)
    (accepted : list Entry) (rerun : bool) :
  process_entry fnmatch (as_lists raw) e = process_entry fnmatch raw e
  /\ modify_entry fnmatch (as_lists raw) e = modify_entry fnmatch raw e
  /\ on_task_modify fnmatch (as_lists raw) accepted rerun
     = on_task_modify fnmatch raw accepted rerun.
Proof.
  assert (Hp : forall e0, process_entry fnmatch (as_lists raw) e0
                          = process_entry fnmatch raw e0).
  { intros e0. unfold process_entry. rewrite get_config_as_lists. reflexivity. }
  assert (Hm : forall e0, modify_entry fnmatch (as_lists raw) e0
                          = modify_entry fnmatch raw e0).
  { intros e0. unfold modify_entry. rewrite Hp, get_config_as_lists. reflexivity. }
  split; [apply Hp|]. split; [apply Hm|].
  revert rerun. induction accepted as [|x l IH]; intros rerun; auto.
  cbn [on_task_modify]. rewrite Hm. destruct (modify_entry fnmatch raw x).
  rewrite IH. reflexivity.
Qed.

(** What [process_entry] can do to an entry, and for which reason. *)
Lemma process_entry_cases (raw : RawConfig) (e : Entry) :
  process_entry fnmatch raw e = (e, false)
  \/ exists files why,
       content_files e = Some files
       /\ process_entry fnmatch raw e = (entry_reject e why, true)
       /\ let config := get_config raw in
          (why = reason_require
           /\ key_masks (require config) <> []
           /\ (matching_mask fnmatch files (key_masks (require config)) = None
               \/ matching_mask fnmatch files (key_masks (require config))
                  = Some EmptyString))
          \/ (why = reason_require_all
              /\ key_masks (require_all config) <> []
              /\ count_matches fnmatch files (key_masks (require_all config))
                 <> List.length (key_masks (require_all config)))
          \/ (exists mask,
                why = reason_banned mask
                /\ In mask (key_masks (reject config))
                /\ mask <> EmptyString
                /\ exists file, In file files /\ fnmatch file mask = true).
Proof.
  unfold process_entry.
  destruct (content_files e) as [files|] eqn:Hfiles; [|left; reflexivity].
  set (config := get_config raw).
  destruct (truthy_key (require config)
            && negb (truthy_mask (matching_mask fnmatch files
                                    (key_masks (require config))))) eqn:E1.
  { right. exists files, reason_require. split; [reflexivity|].
    split; [reflexivity|]. left.
    apply andb_true_iff in E1. destruct E1 as [Hk Hm].
    split; [reflexivity|]. split; [now apply truthy_key_spec|].
    apply negb_true_iff in Hm.
    destruct (matching_mask fnmatch files (key_masks (require config)))
      as [[|c s]|]; auto. discriminate. }
  destruct (truthy_key (require_all config)
            && negb (Nat.eqb (count_matches fnmatch files
                                (key_masks (require_all config)))
                             (List.length (key_masks (require_all config))))) eqn:E2.
  { right. exists files, reason_require_all. split; [reflexivity|].
    split; [reflexivity|]. right. left.
    apply andb_true_iff in E2. destruct E2 as [Hk Hm].
    split; [reflexivity|]. split; [now apply truthy_key_spec|].
    apply negb_true_iff in Hm. now apply Nat.eqb_neq. }
  destruct (truthy_key (reject config)); [|left; reflexivity].
  destruct (matching_mask fnmatch files (key_masks (reject config)))
    as [mask|] eqn:Hm; [|left; reflexivity].
  destruct (truthy_str mask) eqn:Ht; [|left; reflexivity].
  right. exists files, (reason_banned mask). split; [reflexivity|].
  split; [reflexivity|]. right. right. exists mask.
  destruct (matching_mask_In fnmatch _ _ _ Hm) as (Hin & Hex).
  repeat split; auto. intros ->. discriminate.
Qed.

(** X2.  [process_entry] either leaves the entry as it is and reports
    nothing, or rejects it (with [remember] set) and reports [True]; nothing
    but the rejection is changed.  A rejection for [require] happens only
    when [require] is not empty and [matching_mask] found nothing or the
    empty mask; one for [require_all] only when the pair count differs from
    the number of masks; one for a banned file names a mask of [reject] that
    is not empty and that some file of the manifest matches. *)
Theorem X2_rejections_are_justified (raw : RawConfig) (e : Entry) :
  process_entry fnmatch raw e = (e, false)
  \/ exists files why,
       content_files e = Some files
       /\ process_entry fnmatch raw e = (entry_reject e why, true)
       /\ let config := get_config raw in
          (why = reason_require
           /\ key_masks (require config) <> []
           /\ (matching_mask fnmatch files (key_masks (require config)) = None
               \/ matching_mask fnmatch files (key_masks (require config))
                  = Some EmptyString))
          \/ (why = reason_require_all
              /\ key_masks (require_all config) <> []
              /\ count_matches fnmatch files (key_masks (require_all config))
                 <> List.length (key_masks (require_all config)))
          \/ (exists mask,
                why = reason_banned mask
                /\ In mask (key_masks (reject config))
                /\ mask <> EmptyString
                /\ exists file, In file files /\ fnmatch file mask = true).
Proof.
  exact (process_entry_cases raw e).
Qed.

(** X3.  With no masks at all (each of the three keys missing or empty)
    [process_entry] rejects nothing, whatever the manifest is, and the loop
    body of [on_task_modify] rejects only an entry without manifest under
    [strict]. *)
Theorem X3_no_masks_no_rejection (raw : RawConfig) (e : Entry) :
  key_masks (require (get_config raw)) = [] ->
  key_masks (require_all (get_config raw)) = [] ->
  key_masks (reject (get_config raw)) = [] ->
  process_entry fnmatch raw e = (e, false)
  /\ (content_files (parse_torrent_files e) <> None ->
      modify_entry fnmatch raw e = (parse_torrent_files e, false)).
Proof.
  intros H1 H2 H3.
  assert (Hk : forall v, key_masks v = [] -> truthy_key v = false).
  { intros v Hv. destruct (truthy_key v) eqn:E; auto.
    apply truthy_key_spec in E. contradiction. }
  assert (Hp : forall e0, process_entry fnmatch raw e0 = (e0, false)).
  { intros e0. unfold process_entry.
    rewrite (Hk _ H1), (Hk _ H2), (Hk _ H3). simpl.
    destruct (content_files e0); reflexivity. }
  split; [apply Hp|].
  intros Hpresent. unfold modify_entry. rewrite Hp.
  destruct (content_files (parse_torrent_files e)); [reflexivity | contradiction].
Qed.

Lemma matching_mask_nil masks : matching_mask fnmatch [] masks = None.
Proof. reflexivity. Qed.

(** X4.  An empty manifest (the key is there, the list is empty) is rejected
    exactly when [require] or [require_all] is not empty, [require] first; the
    [reject] list never applies to it. *)
Theorem X4_empty_manifest (raw : RawConfig) (e : Entry) :
  content_files e = Some [] ->
  process_entry fnmatch raw e
  = if truthy_key (require (get_config raw))
    then (entry_reject e reason_require, true)
    else if truthy_key (require_all (get_config raw))
         then (entry_reject e reason_require_all, true)
         else (e, false).
Proof.
  intros Hfiles. unfold process_entry. rewrite Hfiles. cbv zeta.
  generalize (get_config raw). intros config.
  cbn [matching_mask count_matches truthy_mask negb]. rewrite andb_true_r.
  destruct (truthy_key (require config)); [reflexivity|].
  destruct (require_all config) as [[|m l]|]; cbn;
    try reflexivity; destruct (truthy_key (reject config)); reflexivity.
Qed.

Lemma count_masks_sum file masks :
  count_masks fnmatch file masks
  = list_sum (map (fun mask => if fnmatch file mask then 1 else 0) masks).
Proof.
  induction masks as [|m ms IH]; simpl; auto.
Qed.

(** The count of the [require_all] block is the sum, over the masks, of the
    number of files each mask matches. *)
Lemma count_matches_sum files masks :
  count_matches fnmatch files masks
  = list_sum (map (count_files fnmatch files) masks).
Proof.
  induction files as [|f fs IH]; simpl.
  - induction masks as [|m ms IHm]; simpl; auto.
  - rewrite IH, count_masks_sum. clear IH.
    assert (Hcf : forall m,
      count_files fnmatch (f :: fs) m
      = (if fnmatch f m then 1 else 0) + count_files fnmatch fs m).
    { intros m. unfold count_files. simpl. destruct (fnmatch f m); reflexivity. }
    induction masks as [|m ms IHm]; [reflexivity|].
    cbn [map]. change (list_sum (?x :: ?l)) with (x + list_sum l).
    rewrite Hcf, <- IHm. lia.
Qed.

Lemma sum_of_positives (counts : list nat) :
  Forall (fun c => 1 <= c) counts ->
  (list_sum counts = List.length counts <-> Forall (fun c => c = 1) counts).
Proof.
  intros Hpos.
  assert (Hge : List.length counts <= list_sum counts).
  { induction Hpos; simpl; lia. }
  induction Hpos as [|c l Hc Hl IH]; simpl in *.
  - split; auto.
  - assert (Hge' : List.length l <= list_sum l).
    { clear - Hl. induction Hl; simpl; lia. }
    split.
    + intros Hs. constructor; [lia|]. apply IH; lia.
    + intros Hall. inversion Hall; subst. apply IH in H2; lia.
Qed.

(** X5.  When every mask of [require_all] is matched by at least one file,
    the count test of the [require_all] block passes exactly when every mask
    is matched by exactly one file. *)
Theorem X5_require_all_count_exact (files masks : list string) :
  Forall (fun mask => 1 <= count_files fnmatch files mask) masks ->
  (count_matches fnmatch files masks = List.length masks
   <-> Forall (fun mask => count_files fnmatch files mask = 1) masks).
Proof.
  intros Hpos. rewrite count_matches_sum.
  rewrite <- (length_map (count_files fnmatch files) masks).
  rewrite (sum_of_positives (map (count_files fnmatch files) masks)).
  - rewrite Forall_map. reflexivity.
  - rewrite Forall_map. exact Hpos.
Qed.

(** X7.  [on_task_modify] treats every accepted entry on its own: the
    entries afterwards are the results of the loop body in order, as many as
    before, and a rerun is requested at the end exactly when one was
    requested before or the loop body rejected some entry. *)
Theorem X7_on_task_modify_entrywise (raw : RawConfig) (accepted : list Entry)
    (rerun : bool) :
  on_task_modify fnmatch raw accepted rerun
  = (map (fun e => fst (modify_entry fnmatch raw e)) accepted,
     rerun || existsb (fun e => snd (modify_entry fnmatch raw e)) accepted)
  /\ List.length (fst (on_task_modify fnmatch raw accepted rerun))
     = List.length accepted.
Proof.
  assert (H : forall r,
    on_task_modify fnmatch raw accepted r
    = (map (fun e => fst (modify_entry fnmatch raw e)) accepted,
       r || existsb (fun e => snd (modify_entry fnmatch raw e)) accepted)).
  { induction accepted as [|e l IH]; intros r.
    - simpl. now rewrite orb_false_r.
    - cbn [on_task_modify map existsb].
      destruct (modify_entry fnmatch raw e) as [e' b]. rewrite IH. simpl.
      now rewrite orb_assoc. }
  split; [apply H|]. rewrite H. simpl. apply length_map.
Qed.


Lemma find_nothing {A : Type} (p : A -> bool) (l : list A) :
  (forall x, In x l -> p x = false) -> find p l = None.
Proof.
  induction l as [|x l IH]; simpl; intros H; auto.
  rewrite (H x) by auto. apply IH. intros y Hy. apply H. auto.
Qed.

(** X9.  [matching_mask] on two file lists one after the other is
    [matching_mask] on the first list and, when that finds nothing, on the
    second.  On a single file it returns the first mask, in the order of the
    mask list, that the file matches; and on every file list it finds nothing
    exactly when no mask is matched by any file. *)
Theorem X9_matching_mask_composes (files files' masks : list string) (file : string) :
  matching_mask fnmatch (files ++ files') masks
  = match matching_mask fnmatch files masks with
    | Some mask => Some mask
    | None => matching_mask fnmatch files' masks
    end
  /\ matching_mask fnmatch [file] masks = matchAny_spec fnmatch [file] masks
  /\ (matching_mask fnmatch files masks = None
      <-> matchAny_spec fnmatch files masks = None).
Proof.
  split; [|split].
  - induction files as [|f fs IH]; simpl; auto.
    destruct (first_mask fnmatch f masks); auto.
  - unfold matchAny_spec. simpl.
    induction masks as [|m ms IH]; simpl; auto.
    rewrite orb_false_r. simpl in IH.
    destruct (fnmatch file m); [reflexivity | exact IH].
  - rewrite matching_mask_None. unfold matchAny_spec, FilterData.unmatched.
    split.
    + intros H. apply find_nothing. intros m Hm.
      destruct (existsb (fun f => fnmatch f m) files) eqn:E; auto.
      apply existsb_exists in E. destruct E as (f & Hf & Hfm).
      rewrite (H f Hf m Hm) in Hfm. discriminate.
    + intros H f Hf m Hm.
      pose proof (find_none _ _ H m Hm) as Hn. simpl in Hn.
      destruct (fnmatch f m) eqn:E; auto.
      assert (Hex : existsb (fun f0 => fnmatch f0 m) files = true)
        by (apply existsb_exists; eauto).
      congruence.
Qed.

(** X8.  The loop body of [on_task_modify] returns the entry with its
    manifest parsed and nothing else changed, asking for no rerun, or the
    entry rejected, asking for a rerun.  It returns a manifest-less entry
    unrejected only when [strict] is not set. *)
Theorem X8_modify_entry_outcomes (raw : RawConfig) (e : Entry) :
  (modify_entry fnmatch raw e = (parse_torrent_files e, false)
   /\ (content_files (parse_torrent_files e) = None ->
       truthy_flag (strict (get_config raw)) = false))
  \/ exists why,
       modify_entry fnmatch raw e
       = (entry_reject (parse_torrent_files e) why, true).
Proof.
  unfold modify_entry.
  destruct (process_entry_cases raw (parse_torrent_files e))
    as [Hp | (files & why & Hfiles & Hp & _)]; rewrite Hp.
  - destruct (content_files (parse_torrent_files e)) eqn:Hc.
    + left. split; [reflexivity | discriminate].
    + destruct (truthy_flag (strict (get_config raw))) eqn:Hs.
      * right. exists reason_strict. reflexivity.
      * left. split; reflexivity.
  - right. exists why. reflexivity.
Qed.

End Matcher.

(** X6.  [parse_torrent_files] changes nothing but the manifest.  With a
    torrent that lists files, the manifest becomes the joined paths of these
    files, one for each, in order, whatever it was before; with no torrent or
    a torrent without files the entry is left as it is.  Parsing twice is
    parsing once. *)
Theorem X6_parse_torrent_files (e : Entry) :
  parse_torrent_files (parse_torrent_files e) = parse_torrent_files e
  /\ title (parse_torrent_files e) = title e
  /\ torrent (parse_torrent_files e) = torrent e
  /\ rejected (parse_torrent_files e) = rejected e
  /\ (forall item items,
        torrent e = Some (item :: items) ->
        content_files (parse_torrent_files e)
        = Some (map (fun it => posixpath_join (path it) (name it)) (item :: items)))
  /\ (torrent e = None \/ torrent e = Some [] -> parse_torrent_files e = e).
Proof.
  destruct (torrent e) as [[|item items]|] eqn:Ht.
  - assert (Hp : parse_torrent_files e = e)
      by (unfold parse_torrent_files; rewrite Ht; reflexivity).
    rewrite !Hp. repeat split; auto. discriminate.
  - assert (Hp : parse_torrent_files e
                 = {| title := title e; torrent := torrent e;
                      content_files :=
                        Some (map (fun it => posixpath_join (path it) (name it))
                                  (item :: items));
                      rejected := rejected e |})
      by (unfold parse_torrent_files; rewrite Ht; reflexivity).
    rewrite !Hp. repeat split; try reflexivity; try (cbn; exact Ht).
    + unfold parse_torrent_files. cbn [torrent]. rewrite Ht. reflexivity.
    + intros item' items' [= <- <-]. reflexivity.
    + intros [H|H]; discriminate.
  - assert (Hp : parse_torrent_files e = e)
      by (unfold parse_torrent_files; rewrite Ht; reflexivity).
    rewrite !Hp. repeat split; auto. discriminate.
Qed.

(** X3, witness: a config without any key, an entry with a manifest. *)
Lemma X3_witness :
  process_entry fnmatch_glob no_config (entry_with (Some video_and_nfo))
  = (entry_with (Some video_and_nfo), false)
  /\ (content_files (parse_torrent_files (entry_with (Some video_and_nfo))) <> None ->
      modify_entry fnmatch_glob no_config (entry_with (Some video_and_nfo))
      = (parse_torrent_files (entry_with (Some video_and_nfo)), false)).
Proof.
  exact (X3_no_masks_no_rejection fnmatch_glob no_config
           (entry_with (Some video_and_nfo)) eq_refl eq_refl eq_refl).
Defined.

(** X4, witness: an empty manifest under a config with [require_all] only. *)
Lemma X4_witness :
  process_entry fnmatch_glob config_video_and_subs (entry_with (Some []))
  = (entry_reject (entry_with (Some [])) reason_require_all, true).
Proof.
  exact (X4_empty_manifest fnmatch_glob config_video_and_subs
           (entry_with (Some [])) eq_refl).
Defined.

(** X5, witness: the files [show.mkv; show.nfo] and the masks [*.mkv; *.nfo],
    each matched by one file. *)
Lemma X5_witness :
  count_matches fnmatch_glob video_and_nfo ["*.mkv"; "*.nfo"] = 2
  <-> Forall (fun mask => count_files fnmatch_glob video_and_nfo mask = 1)
             ["*.mkv"; "*.nfo"].
Proof.
  apply (X5_require_all_count_exact fnmatch_glob video_and_nfo ["*.mkv"; "*.nfo"]).
  repeat constructor.
Defined.

(** X6, witness: a torrent of two files in the directory [show]. *)
Lemma X6_witness :
  content_files (parse_torrent_files torrent_entry)
  = Some ["show/e01.mkv"; "show/e01.nfo"]
  /\ parse_torrent_files (entry_with None) = entry_with None.
Proof.
  destruct (X6_parse_torrent_files torrent_entry) as (_ & _ & _ & _ & Hfiles & _).
  destruct (X6_parse_torrent_files (entry_with None)) as (_ & _ & _ & _ & _ & Hnone).
  split.
  - exact (Hfiles _ _ eq_refl).
  - apply Hnone. left. reflexivity.
Defined.

(** X8, witness: an entry without manifest under a config that is not
    strict. *)
Lemma X8_witness :
  (modify_entry fnmatch_glob (config_strict false) (entry_with None)
   = (parse_torrent_files (entry_with None), false)
   /\ (content_files (parse_torrent_files (entry_with None)) = None ->
       truthy_flag (strict (get_config (config_strict false))) = false))
  \/ exists why,
       modify_entry fnmatch_glob (config_strict false) (entry_with None)
       = (entry_reject (parse_torrent_files (entry_with None)) why, true).
Proof.
  exact (X8_modify_entry_outcomes fnmatch_glob (config_strict false) (entry_with None)).
Defined.

End FilterExtra.

(* ================================================================== *)
(** * Further properties of rss.py *)
(* ================================================================== *)

Module RssExtra.
Import MakeRss RssData RssSchema RssProps.
Local Open Scope list_scope.
Local Open Scope Z_scope.

(** ** The schema upgrade *)

Section UpgradeProps.

Variable Session : Type.
Variable table_columns : string -> Session -> list string.
Variable table_add_column : string -> string -> Session -> Session.

(** X10.  When adding a column makes it one of the columns of the table,
    [upgrade] brings a database without recorded version to version 0 with a
    column [rsslink] in the table [make_rss], and adds the column only when
    it is missing; a database with a recorded version is left alone.  A
    second upgrade changes nothing. *)
Theorem X10_upgrade_once (ver : option Z) (s : Session) :
  (forall t c s0, In c (table_columns t (table_add_column t c s0))) ->
  let up := upgrade Session table_columns table_add_column in
  (ver = None ->
   fst (up ver s) = Some 0
   /\ In "rsslink"%string (table_columns "make_rss" (snd (up ver s))))
  /\ (forall v, ver = Some v -> up ver s = (Some v, s))
  /\ (In "rsslink"%string (table_columns "make_rss" s) -> snd (up ver s) = s)
  /\ up (fst (up ver s)) (snd (up ver s)) = up ver s.
Proof.
  intros Hadd up. subst up. unfold upgrade.
  assert (Hmem : forall cols,
    existsb (String.eqb "rsslink") cols = true <-> In "rsslink"%string cols).
  { intros cols. rewrite existsb_exists. split.
    - intros (c & Hc & Heq). apply String.eqb_eq in Heq. now subst.
    - intros Hin. exists "rsslink"%string.
      split; [exact Hin | apply String.eqb_refl]. }
  destruct ver as [v|]; cbv zeta.
  - split; [discriminate|]. split; [intros v' [= ->]; reflexivity|].
    split; reflexivity.
  - destruct (existsb (String.eqb "rsslink") (table_columns "make_rss" s)) eqn:E;
      cbn [negb fst snd].
    + split; [intros _; split; [reflexivity | now apply Hmem]|].
      split; [discriminate|]. split; reflexivity.
    + split; [intros _; split; [reflexivity | apply Hadd]|].
      split; [discriminate|].
      split; [intros Hin; apply Hmem in Hin; congruence | reflexivity].
Qed.

End UpgradeProps.

(** X10, witness: a table with the columns of the first schema, without
    recorded version. *)
Lemma X10_witness :
  (fst (upgrade (list string) columns_of add_column None ["id"; "title"; "file"]%string)
   = Some 0
   /\ In "rsslink"%string
        (columns_of "make_rss"
           (snd (upgrade (list string) columns_of add_column None
                   ["id"; "title"; "file"]%string))))
  /\ upgrade (list string) columns_of add_column
       (fst (upgrade (list string) columns_of add_column None
               ["id"; "title"; "file"]%string))
       (snd (upgrade (list string) columns_of add_column None
               ["id"; "title"; "file"]%string))
     = upgrade (list string) columns_of add_column None ["id"; "title"; "file"]%string.
Proof.
  assert (Hadd : forall t c s0, In c (columns_of t (add_column t c s0))).
  { intros t c s0. unfold columns_of, add_column. apply in_or_app. right. left.
    reflexivity. }
  destruct (X10_upgrade_once (list string) columns_of add_column None
              ["id"; "title"; "file"]%string Hadd) as (H1 & _ & _ & H4).
  split; [exact (H1 eq_refl) | exact H4].
Defined.

(** ** The link of a saved entry *)

Lemma select_link_app e names names' :
  select_link e (names ++ names')
  = match select_link e names with
    | Some v => Some v
    | None => select_link e names'
    end.
Proof.
  induction names as [|f l IH]; simpl; auto.
  destruct (entry_get e f); auto.
Qed.

Lemma select_link_None e names :
  select_link e names = None <-> (forall field, In field names -> entry_get e field = None).
Proof.
  induction names as [|f l IH]; simpl.
  - split; [intros _ ? [] | reflexivity].
  - destruct (entry_get e f) eqn:E.
    + split; [discriminate|]. intros H. rewrite (H f) in E by auto. discriminate.
    + rewrite IH. split.
      * intros H field [<-|Hin]; auto.
      * intros H field Hin. apply H. auto.
Qed.

Lemma select_link_Some e names v :
  select_link e names = Some v ->
  exists before field after,
    names = before ++ field :: after
    /\ (forall f, In f before -> entry_get e f = None)
    /\ entry_get e field = Some v.
Proof.
  induction names as [|f l IH]; simpl; [discriminate|].
  destruct (entry_get e f) eqn:E.
  - intros [= <-]. exists [], f, l. repeat split; auto. intros ? [].
  - intros H. destruct (IH H) as (b & field & a & -> & Hb & Hf).
    exists (f :: b), field, a. repeat split; auto.
    intros f' [<-|Hin]; auto.
Qed.

Lemma config_link_ends_with_url raw :
  exists names, config_link (get_config raw) = names ++ ["url"%string].
Proof.
  destruct raw as [f|d]; cbn [get_config config_link]; eexists; reflexivity.
Qed.

(** X11.  The link preference list of every config ends with [url].  The
    link of a saved entry is the value of the first field of the list that the
    entry has, it is missing only when the entry has none of the fields, and
    an entry that has a [url] field always gets a link. *)
Theorem X11_link_falls_back_to_url (raw : RawConfig) (e : Entry) :
  let names := config_link (get_config raw) in
  last names EmptyString = "url"%string
  /\ (select_link e names = None
      <-> forall field, In field names -> entry_get e field = None)
  /\ (forall v, select_link e names = Some v ->
        exists before field after,
          names = before ++ field :: after
          /\ (forall f, In f before -> entry_get e f = None)
          /\ entry_get e field = Some v)
  /\ (entry_get e "url" <> None -> select_link e names <> None).
Proof.
  intros names. destruct (config_link_ends_with_url raw) as (l & Hl).
  fold names in Hl. split; [|split; [|split]].
  - rewrite Hl. apply last_last.
  - apply select_link_None.
  - intros v. apply select_link_Some.
  - intros Hurl Hnone. apply Hurl.
    apply (proj1 (select_link_None e names) Hnone).
    rewrite Hl. apply in_or_app. right. left. reflexivity.
Qed.

(** ** The config after get_config *)

Lemma save_entries_config env c c' accepted w :
  config_title c' = config_title c ->
  template c' = template c ->
  config_file c' = config_file c ->
  (forall e, select_link e (config_link c') = select_link e (config_link c)) ->
  save_entries env c' accepted w = save_entries env c accepted w.
Proof.
  intros Ht Htm Hf Hl. revert w.
  induction accepted as [|e rest IH]; intros w; auto.
  cbn [save_entries]. rewrite Ht, Htm, Hf, Hl.
  destruct (entry_render env e (config_title c)); auto.
  destruct (render_description env (template c) e); apply IH.
Qed.

Lemma stored_config_link raw :
  get_config (stored_config raw)
  = set_link (get_config raw)
      (match raw with
       | ConfigText _ => config_link (get_config raw)
       | ConfigKeys _ => config_link (get_config raw) ++ ["url"%string]
       end).
Proof.
  destruct raw as [f|d]; reflexivity.
Qed.

Lemma make_items_set_link env c names l st :
  make_items env (set_link c names) l st = make_items env c l st.
Proof.
  revert st. induction l as [|r l IH]; intros st; cbn [make_items]; auto.
  change (loop_step env (set_link c names) st r) with (loop_step env c st r).
  destruct (loop_step env c st r); auto.
Qed.

Lemma on_process_end_set_link env raw raw' names w :
  get_config raw' = set_link (get_config raw) names ->
  on_process_end env raw' w = on_process_end env raw w.
Proof.
  intros H. unfold on_process_end. rewrite H, make_items_set_link. reflexivity.
Qed.

(** X12.  [get_config] updates the dict of the task in place, so that a later
    call finds one more [url] at the end of the [link] list.  This changes
    neither the link chosen for an entry nor what [on_task_exit] and
    [on_process_end] do. *)
Theorem X12_get_config_in_place (env : Env) (raw : RawConfig)
    (accepted : list Entry) (w : World) (e : Entry) :
  (forall d, raw = ConfigKeys d ->
     config_link (get_config (stored_config raw))
     = config_link (get_config raw) ++ ["url"%string])
  /\ select_link e (config_link (get_config (stored_config raw)))
     = select_link e (config_link (get_config raw))
  /\ on_task_exit env (stored_config raw) accepted w = on_task_exit env raw accepted w
  /\ on_process_end env (stored_config raw) w = on_process_end env raw w.
Proof.
  assert (Hsel : forall e0,
    select_link e0 (config_link (get_config (stored_config raw)))
    = select_link e0 (config_link (get_config raw))).
  { intros e0. rewrite stored_config_link. cbn [config_link set_link].
    destruct raw as [f|d]; auto.
    rewrite select_link_app.
    destruct (select_link e0 (config_link (get_config (ConfigKeys d)))) eqn:E; auto.
    simpl. rewrite (proj1 (select_link_None _ _) E); auto.
    destruct (config_link_ends_with_url (ConfigKeys d)) as (l & ->).
    apply in_or_app. right. left. reflexivity. }
  split; [|split; [|split]].
  - intros d ->. reflexivity.
  - apply Hsel.
  - unfold on_task_exit. rewrite stored_config_link.
    cbn [history config_file set_link].
    destruct (rss2gen env); cbn [negb]; auto.
    destruct (opt_test env); auto.
    assert (Hs : forall w0,
      save_entries env (set_link (get_config raw)
                          (match raw with
                           | ConfigText _ => config_link (get_config raw)
                           | ConfigKeys _ => config_link (get_config raw) ++ ["url"%string]
                           end)) accepted w0
      = save_entries env (get_config raw) accepted w0).
    { intros w0. apply save_entries_config; auto.
      intros e0. rewrite <- stored_config_link. apply Hsel. }
    rewrite !Hs. reflexivity.
  - eapply on_process_end_set_link. apply stored_config_link.
Qed.

(** ** Primary keys *)

Lemma session_add_NoDup env t d l f rows :
  NoDup (map id rows) -> NoDup (map id (session_add env t d l f rows)).
Proof.
  intros Hnd. unfold session_add. rewrite map_app. cbn [map id].
  eapply Permutation_NoDup; [apply Permutation_cons_append|].
  constructor; auto.
  intros Hin. apply in_map_iff in Hin. destruct Hin as (r & Hr & Hin).
  apply next_id_above in Hin. lia.
Qed.

Lemma save_entries_NoDup env config accepted w :
  NoDup (map id (db w)) ->
  NoDup (map id (db (world_of (save_entries env config accepted w)))).
Proof.
  revert w. induction accepted as [|e rest IH]; intros w Hnd; auto.
  cbn [save_entries].
  destruct (entry_render env e (config_title config)); auto.
  destruct (render_description env (template config) e);
    apply IH; apply session_add_NoDup; exact Hnd.
Qed.

Lemma clear_history_delete_all f rows :
  clear_history f rows = delete_all (filter_file f rows) rows.
Proof.
  unfold clear_history. apply delete_rows_delete_all.
Qed.

Lemma delete_all_NoDup ds rows :
  NoDup (map id rows) -> NoDup (map id (delete_all ds rows)).
Proof.
  intros H. unfold delete_all. apply NoDup_map_filter, H.
Qed.

Lemma delete_all_nil rows : delete_all [] rows = rows.
Proof.
  unfold delete_all. simpl. induction rows as [|x l IH]; simpl; congruence.
Qed.

(** A loop that returns has deleted some of the rows it went through. *)
Lemma make_items_deletes env config l st st' :
  make_items env config l st = Return st' ->
  exists ds, incl ds l /\ lp_rows st' = delete_all ds (lp_rows st).
Proof.
  revert st. induction l as [|r l IH]; intros st H; cbn [make_items] in H.
  - injection H as <-. exists []. split; [apply incl_refl|].
    symmetry. apply delete_all_nil.
  - unfold loop_step in H.
    destruct (keep_row config (List.length (lp_items st)) (today env (lp_reads st)) r)
      as [[|]|]; cbv beta iota zeta in H.
    + apply IH in H. destruct H as (ds & Hi & Hr).
      exists ds. split; [apply incl_tl; exact Hi | exact Hr].
    + apply IH in H. destruct H as (ds & Hi & Hr). cbn [lp_rows] in Hr.
      exists (r :: ds). split.
      * intros x [<-|Hx]; [left; reflexivity | right; apply Hi, Hx].
      * rewrite delete_all_cons. exact Hr.
    + discriminate.
Qed.

(** What [on_process_end] leaves in the table, whether it returns or raises:
    the table without some of the rows of the newest-first listing. *)
Lemma on_process_end_db env raw w :
  exists ds,
    incl ds (list_newest_first (config_file (get_config raw)) (db w))
    /\ db (world_of (on_process_end env raw w)) = delete_all ds (db w).
Proof.
  assert (Hsame : forall w0 : World, db w0 = db w ->
            exists ds,
              incl ds (list_newest_first (config_file (get_config raw)) (db w))
              /\ db w0 = delete_all ds (db w)).
  { intros w0 H0. exists []. split; [intros x []|].
    rewrite delete_all_nil. exact H0. }
  unfold on_process_end.
  destruct (rss2gen env); cbn [negb]; [|apply Hsame; reflexivity].
  destruct (opt_learn env); [apply Hsame; reflexivity|]. cbv zeta.
  destruct (is_written w _); [apply Hsame; reflexivity|].
  destruct (make_items env _ _ _) as [st|e st] eqn:E; [|apply Hsame; reflexivity].
  apply make_items_deletes in E. destruct E as (ds & Hi & Hr).
  cbn [lp_rows] in Hr. exists ds. split; [exact Hi|].
  destruct (open_w env _); [exact Hr|].
  destruct (write_xml env _ _ _) as [[]|]; exact Hr.
Qed.

(** X13.  The primary keys of the table stay distinct: when they are
    distinct before a call of [on_task_exit] or of [on_process_end], they are
    distinct in the state the call leaves, whether it returns or raises. *)
Theorem X13_primary_keys_stay_distinct (env : Env) (raw : RawConfig)
    (accepted : list Entry) (w : World) :
  NoDup (map id (db w)) ->
  NoDup (map id (db (world_of (on_task_exit env raw accepted w))))
  /\ NoDup (map id (db (world_of (on_process_end env raw w)))).
Proof.
  intros Hnd. split.
  - unfold on_task_exit.
    destruct (rss2gen env); cbn [negb]; auto.
    destruct (opt_test env); auto. cbv zeta.
    destruct (history (get_config raw)); cbn [negb].
    + apply save_entries_NoDup, Hnd.
    + pose proof (save_entries_NoDup env (get_config raw) accepted
                    (add_log w (LogDebug "disabling history")) Hnd) as Hs.
      destruct (save_entries env (get_config raw) accepted _) as [w1|e w1];
        cbn [world_of flush_deletes db set_db] in *;
        rewrite delete_rows_delete_all; apply delete_all_NoDup, Hs.
  - destruct (on_process_end_db env raw w) as (ds & _ & ->).
    apply delete_all_NoDup, Hnd.
Qed.

(** X13, witness: saving an entry into, and finalizing, the sample table. *)
Lemma X13_witness :
  NoDup (map id (db (world_of (on_task_exit env_ok (ConfigText feed) [episode]
                                 (world_with aged_rows)))))
  /\ NoDup (map id (db (world_of (on_process_end env_ok (ConfigText feed)
                                    (world_with aged_rows))))).
Proof.
  apply (X13_primary_keys_stay_distinct env_ok (ConfigText feed) [episode]
           (world_with aged_rows)).
  repeat constructor; simpl; intuition discriminate.
Defined.

(** ** What on_task_exit leaves alone *)

Lemma save_entries_frame env config accepted w :
  written (world_of (save_entries env config accepted w)) = written w
  /\ trace (world_of (save_entries env config accepted w)) = trace w.
Proof.
  revert w. induction accepted as [|e rest IH]; intros w; auto.
  cbn [save_entries].
  destruct (entry_render env e (config_title config)); auto.
  destruct (render_description env (template config) e);
    match goal with
    | |- context [save_entries env config rest ?w0] =>
        destruct (IH w0) as [-> ->]
    end; auto.
Qed.

Lemma NoDup_map_inj {A B : Type} (f : A -> B) l x y :
  NoDup (map f l) -> In x l -> In y l -> f x = f y -> x = y.
Proof.
  induction l as [|a l IH]; simpl; [intros _ []|].
  intros Hnd Hx Hy Heq. inversion Hnd as [|? ? Ha Hnd']; subst.
  destruct Hx as [->|Hx], Hy as [->|Hy]; auto.
  - exfalso. apply Ha. rewrite Heq. now apply in_map.
  - exfalso. apply Ha. rewrite <- Heq. now apply in_map.
Qed.

(** Every row of the file is gone after the backlog was emptied. *)
Lemma clear_history_file f rows : filter_file f (clear_history f rows) = [].
Proof.
  rewrite clear_history_delete_all. unfold delete_all, filter_file.
  destruct (filter _ (filter _ rows)) as [|r l] eqn:E; auto.
  assert (Hin : In r (r :: l)) by (left; reflexivity).
  rewrite <- E in Hin. apply filter_In in Hin. destruct Hin as [Hin Hf].
  apply filter_In in Hin. destruct Hin as [Hin Hkeep].
  rewrite mem_id_In in Hkeep; [discriminate|].
  apply filter_In. auto.
Qed.

(** Deleting rows of one file does not touch the rows of another file, when
    the keys are distinct. *)
Lemma delete_all_other_file f g ds rows :
  NoDup (map id rows) ->
  (forall d, In d ds -> In d rows /\ file d = f) ->
  g <> f ->
  filter_file g (delete_all ds rows) = filter_file g rows.
Proof.
  intros Hnd Hds Hg. unfold filter_file, delete_all.
  rewrite filter_comm.
  assert (Hkeep : forall r, In r (filter (fun r => String.eqb (file r) g) rows) ->
                            negb (mem_id r ds) = true).
  { intros r Hr. apply filter_In in Hr. destruct Hr as [Hr Hfile].
    apply String.eqb_eq in Hfile.
    destruct (mem_id r ds) eqn:E; auto.
    unfold mem_id in E. apply existsb_exists in E. destruct E as (d & Hd & Heq).
    apply Z.eqb_eq in Heq. destruct (Hds d Hd) as [Hdin Hdf].
    assert (r = d) by (eapply NoDup_map_inj; eauto).
    subst d. congruence. }
  revert Hkeep. generalize (filter (fun r => String.eqb (file r) g) rows).
  intros l. induction l as [|x l IH]; intros Hkeep; simpl; auto.
  rewrite (Hkeep x) by (left; reflexivity).
  f_equal. apply IH. intros r Hr. apply Hkeep. right. exact Hr.
Qed.

Lemma filter_file_app f l l' :
  filter_file f (l ++ l') = filter_file f l ++ filter_file f l'.
Proof. apply filter_app. Qed.

Lemma filter_file_all f l :
  Forall (fun r => file r = f) l -> filter_file f l = l.
Proof.
  unfold filter_file. induction 1 as [|x l Hx Hl IH]; simpl; auto.
  rewrite Hx, String.eqb_refl, IH. reflexivity.
Qed.

Lemma filter_file_none f g l :
  Forall (fun r => file r = f) l -> g <> f -> filter_file g l = [].
Proof.
  unfold filter_file. induction 1 as [|x l Hx Hl IH]; intros Hg; simpl; auto.
  rewrite Hx. destruct (String.eqb_spec f g) as [->|_]; [contradiction | auto].
Qed.

(** X14.  [on_task_exit] never writes a file and never marks a destination:
    the marks and the medium are as before, whether it returns or raises.
    With distinct keys it leaves the rows of every other file as they are. *)
Theorem X14_on_task_exit_frame (env : Env) (raw : RawConfig)
    (accepted : list Entry) (w : World) (g : string) :
  let w' := world_of (on_task_exit env raw accepted w) in
  written w' = written w
  /\ trace w' = trace w
  /\ (NoDup (map id (db w)) ->
      g <> config_file (get_config raw) ->
      filter_file g (db w') = filter_file g (db w)).
Proof.
  intros w'. subst w'.
  assert (Hframe :
    written (world_of (on_task_exit env raw accepted w)) = written w
    /\ trace (world_of (on_task_exit env raw accepted w)) = trace w).
  { unfold on_task_exit.
    destruct (rss2gen env); cbn [negb]; auto.
    destruct (opt_test env); auto. cbv zeta.
    destruct (history (get_config raw)); cbn [negb].
    - apply save_entries_frame.
    - pose proof (save_entries_frame env (get_config raw) accepted
                    (add_log w (LogDebug "disabling history"))) as Hs.
      destruct (save_entries env (get_config raw) accepted _) as [w1|e w1];
        exact Hs. }
  split; [apply Hframe|]. split; [apply Hframe|].
  intros Hnd Hg.
  destruct (on_task_exit_new_rows env raw accepted w) as (news & -> & Hall & _).
  assert (Hfile : Forall (fun r => file r = config_file (get_config raw)) news)
    by (eapply Forall_impl; [|exact Hall]; cbv beta; tauto).
  rewrite filter_file_app, (filter_file_none _ _ _ Hfile Hg), app_nil_r.
  unfold backlog.
  destruct (rss2gen env && negb (opt_test env) && negb (history (get_config raw)));
    auto.
  rewrite clear_history_delete_all.
  apply (delete_all_other_file (config_file (get_config raw))); auto.
  intros d Hd. unfold filter_file in Hd. apply filter_In in Hd.
  destruct Hd as [Hd Hf]. apply String.eqb_eq in Hf. auto.
Qed.

(** X15.  With [history] switched off, a call of [on_task_exit] in which
    every title renders returns and leaves, as the rows of the file, exactly
    the rows it saved: one for each accepted entry, in order.  Nothing of the
    backlog of the file is left beside them. *)
Theorem X15_history_off_replaces_rows (env : Env) (raw : RawConfig)
    (accepted : list Entry) (w : World) :
  let config := get_config raw in
  rss2gen env = true ->
  opt_test env = false ->
  history config = false ->
  (forall e, In e accepted ->
             exists t, entry_render env e (config_title config) = Ok t) ->
  exists w',
    on_task_exit env raw accepted w = Return w'
    /\ Forall2 (saved_as env config) accepted
               (filter_file (config_file config) (db w'))
    /\ List.length (filter_file (config_file config) (db w'))
       = List.length accepted.
Proof.
  intros config Hgen Htest Hhist Htitles.
  destruct (on_task_exit_saved env raw accepted w Hgen Htest Htitles)
    as (w' & news & Hrun & Hdb & Hall).
  fold config in Hall.
  unfold backlog in Hdb. fold config in Hdb.
  rewrite Hgen, Htest, Hhist in Hdb. cbn [negb andb] in Hdb.
  assert (Hfile : Forall (fun r => file r = config_file config) news).
  { clear - Hall. induction Hall as [|e r l l' Hs _ IH]; constructor; auto.
    destruct Hs as (_ & _ & _ & Hf & _). exact Hf. }
  assert (Hrows : filter_file (config_file config) (db w') = news).
  { rewrite Hdb, filter_file_app, clear_history_file, (filter_file_all _ _ Hfile).
    reflexivity. }
  exists w'. split; [exact Hrun|]. rewrite Hrows. split; [exact Hall|].
  symmetry. eapply Forall2_length, Hall.
Qed.

(** X15, witness: the sample table, history off, one accepted entry. *)
Lemma X15_witness :
  exists w',
    on_task_exit env_ok config_no_history [episode] (world_with aged_rows) = Return w'
    /\ Forall2 (saved_as env_ok (get_config config_no_history)) [episode]
               (filter_file feed (db w'))
    /\ List.length (filter_file feed (db w')) = 1%nat.
Proof.
  apply (X15_history_off_replaces_rows env_ok config_no_history [episode]
           (world_with aged_rows) eq_refl eq_refl eq_refl).
  intros e _. exists (entry_title e). reflexivity.
Defined.

(** ** What on_process_end leaves alone *)

Lemma list_newest_first_In f rows r :
  In r (list_newest_first f rows) <-> In r rows /\ file r = f.
Proof.
  unfold list_newest_first, filter_file. split.
  - intros H. eapply Permutation_in in H; [|apply Permutation_sym, order_by_perm].
    apply filter_In in H. destruct H as [H Hf]. apply String.eqb_eq in Hf. auto.
  - intros [H Hf]. eapply Permutation_in; [apply order_by_perm|].
    apply filter_In. split; auto. now apply String.eqb_eq.
Qed.

Lemma store_after_incl env config w : incl (store_after env config w) (db w).
Proof.
  intros r Hr. unfold store_after, delete_all in Hr.
  apply filter_In in Hr. tauto.
Qed.

(** X16.  [on_process_end] adds no row to the table and changes none: every
    row it leaves was there before.  With distinct keys it leaves the rows of
    every other file as they are. *)
Theorem X16_other_destinations_untouched (env : Env) (raw : RawConfig)
    (w : World) (g : string) :
  let w' := world_of (on_process_end env raw w) in
  incl (db w') (db w)
  /\ (NoDup (map id (db w)) ->
      g <> config_file (get_config raw) ->
      filter_file g (db w') = filter_file g (db w)).
Proof.
  intros w'. subst w'.
  destruct (on_process_end_db env raw w) as (ds & Hds & ->).
  split.
  - intros r Hr. unfold delete_all in Hr. apply filter_In in Hr. tauto.
  - intros Hnd Hg.
    apply (delete_all_other_file (config_file (get_config raw))); auto.
    intros d Hd. apply Hds in Hd. now apply list_newest_first_In in Hd.
Qed.

(** ** The bounds *)

Lemma keep_row_unlimited config count now r :
  days config = -1 -> items config = -1 -> keep_row config count now r = Ok true.
Proof.
  intros Hd Hi. unfold keep_row. rewrite Hd, Hi. reflexivity.
Qed.

Lemma rows_unlimited env config c k l :
  days config = -1 -> items config = -1 ->
  kept_rows env config c k l = l /\ dropped_rows env config c k l = [].
Proof.
  intros Hd Hi. revert c k.
  induction l as [|r l IH]; intros c k; cbn [kept_rows dropped_rows]; auto.
  rewrite keep_row_unlimited by assumption.
  destruct (IH (S c) (if negb (days config =? -1) then S k else k)) as [-> ->].
  auto.
Qed.

Section Run.

Variables (env : Env) (raw : RawConfig) (w : World).

Let config := get_config raw.
Let f := config_file config.
Let fn := expanduser env f.
Let w' := world_of (on_process_end env raw w).

Hypothesis Hgen : rss2gen env = true.
Hypothesis Hlearn : opt_learn env = false.
Hypothesis Hfresh : is_written w f = false.

(** X17.  With both bounds switched off ([days] = -1 and [items] = -1) a
    call of [on_process_end] that is not skipped deletes nothing, and when
    the file is opened and written the document lists every row of the file,
    newest first. *)
Theorem X17_unlimited_keeps_everything :
  days config = -1 ->
  items config = -1 ->
  db w' = db w
  /\ (open_w env fn = None ->
      write_xml env fn (encoding config) (feed_document env config w) = None ->
      exists doc,
        on_process_end env raw w = Return w'
        /\ trace w' = trace w ++ [Opened fn; Wrote fn (encoding config) doc]
        /\ rss_items doc = map make_item (list_newest_first f (db w))).
Proof.
  intros Hd Hi.
  destruct (rows_unlimited env config 0 0 (list_newest_first f (db w)) Hd Hi)
    as [Hkept Hdropped].
  assert (Hloop : loop_completes env config (list_newest_first f (db w)))
    by (left; exact Hd).
  split.
  - unfold w'. rewrite finalize_db by assumption.
    unfold store_after. fold config f. rewrite Hdropped. apply delete_all_nil.
  - intros Ho Hw.
    destruct (finalize_written env raw w Hgen Hlearn Hfresh Hloop Ho Hw)
      as (w1 & Hrun & _ & _ & Htr).
    assert (Hw1 : w' = w1) by (unfold w'; rewrite Hrun; reflexivity).
    exists (feed_document env config w). rewrite Hw1. repeat split; auto.
    unfold feed_document. cbn [rss_items]. fold f. now rewrite Hkept.
Qed.

Lemma rows_items_negative c k l :
  items config < -1 ->
  tests_in_range env config k l ->
  kept_rows env config c k l = [] /\ dropped_rows env config c k l = l.
Proof.
  intros Hi. revert c k.
  induction l as [|r l IH]; intros c k Hin; cbn [kept_rows dropped_rows]; auto.
  assert (Hk : keep_row config c (today env k) r = Ok false).
  { rewrite (keep_row_in_range env config k r l c Hin).
    assert (H1 : (items config =? -1) = false) by (apply Z.eqb_neq; lia).
    assert (H2 : (Z.of_nat c >? items config) = true)
      by (rewrite Z.gtb_ltb; apply Z.ltb_lt; lia).
    rewrite H1, H2. reflexivity. }
  rewrite Hk. apply tests_in_range_tail in Hin.
  destruct (IH c _ Hin) as [-> ->]. auto.
Qed.

(** X18.  With an [items] bound below -1 a call of [on_process_end] that is
    not skipped and whose loop completes deletes every row of the file,
    whether or not the rows pass the age test, and when the file is opened
    and written the document has no entry. *)
Theorem X18_items_below_minus_one :
  items config < -1 ->
  loop_completes env config (list_newest_first f (db w)) ->
  filter_file f (db w') = []
  /\ (open_w env fn = None ->
      write_xml env fn (encoding config) (feed_document env config w) = None ->
      exists doc,
        on_process_end env raw w = Return w'
        /\ trace w' = trace w ++ [Opened fn; Wrote fn (encoding config) doc]
        /\ rss_items doc = []).
Proof.
  intros Hi Hloop.
  destruct (rows_items_negative 0 0 (list_newest_first f (db w)) Hi
              (loop_completes_tests _ _ _ Hloop))
    as [Hkept Hdropped].
  split.
  - unfold w'. rewrite finalize_db by assumption.
    unfold store_after. fold config f. rewrite Hdropped.
    unfold delete_all, filter_file.
    destruct (filter _ (filter _ (db w))) as [|r l] eqn:E; auto.
    assert (Hin : In r (r :: l)) by (left; reflexivity).
    rewrite <- E in Hin. apply filter_In in Hin. destruct Hin as [Hin Hf].
    apply filter_In in Hin. destruct Hin as [Hin Hkeep].
    apply String.eqb_eq in Hf.
    rewrite mem_id_In in Hkeep; [discriminate|].
    apply list_newest_first_In. auto.
  - intros Ho Hw.
    destruct (finalize_written env raw w Hgen Hlearn Hfresh Hloop Ho Hw)
      as (w1 & Hrun & _ & _ & Htr).
    assert (Hw1 : w' = w1) by (unfold w'; rewrite Hrun; reflexivity).
    exists (feed_document env config w). rewrite Hw1. repeat split; auto.
    unfold feed_document. cbn [rss_items]. fold f. now rewrite Hkept.
Qed.

(** X19.  With no age bound and an [items] bound [n >= 0], a call of
    [on_process_end] that is not skipped, on a table with distinct keys,
    leaves of the file the first [n + 1] rows of the newest-first listing, and
    these are the entries of the document it writes: the row count is
    compared with [n] before the row is added. *)
Theorem X19_items_bound_keeps_first_rows :
  days config = -1 ->
  0 <= items config ->
  NoDup (map id (db w)) ->
  list_newest_first f (db w')
  = firstn (S (Z.to_nat (items config))) (list_newest_first f (db w))
  /\ (open_w env fn = None ->
      write_xml env fn (encoding config) (feed_document env config w) = None ->
      exists doc,
        on_process_end env raw w = Return w'
        /\ trace w' = trace w ++ [Opened fn; Wrote fn (encoding config) doc]
        /\ rss_items doc
           = map make_item
               (firstn (S (Z.to_nat (items config))) (list_newest_first f (db w)))).
Proof.
  intros Hd Hi Hnd.
  assert (Hloop : loop_completes env config (list_newest_first f (db w)))
    by (left; exact Hd).
  assert (Hkept : kept_rows env config 0 0 (list_newest_first f (db w))
                  = firstn (S (Z.to_nat (items config))) (list_newest_first f (db w))).
  { rewrite (kept_rows_items_bound env config 0 0 _ Hd Hi) by lia.
    rewrite Nat.sub_0_r. reflexivity. }
  split.
  - unfold w'. rewrite finalize_db by assumption.
    rewrite <- Hkept. symmetry. apply kept_rows_survivors; assumption.
  - intros Ho Hw.
    destruct (finalize_written env raw w Hgen Hlearn Hfresh Hloop Ho Hw)
      as (w1 & Hrun & _ & _ & Htr).
    assert (Hw1 : w' = w1) by (unfold w'; rewrite Hrun; reflexivity).
    exists (feed_document env config w). rewrite Hw1. repeat split; auto.
    unfold feed_document. cbn [rss_items]. fold f. now rewrite Hkept.
Qed.

(** X21.  When the loop has completed, the file was opened and [write_xml]
    raises, a [LookupError] or an [IOError] is logged as critical and
    [on_process_end] returns; any other exception leaves the handler.  In
    both cases the destination is not marked as written, the file was opened,
    no document was written, and the rows the loop deleted stay deleted. *)
Theorem X21_write_errors (e : exn) :
  loop_completes env config (list_newest_first f (db w)) ->
  open_w env fn = None ->
  write_xml env fn (encoding config) (feed_document env config w) = Some e ->
  db w' = store_after env config w
  /\ written w' = written w
  /\ trace w' = trace w ++ [Opened fn]
  /\ (e = LookupError \/ e = IOError ->
      exists msg, on_process_end env raw w = Return w'
                  /\ last (log w') (LogDebug EmptyString) = LogCritical msg)
  /\ (e <> LookupError -> e <> IOError -> on_process_end env raw w = Raise e w').
Proof.
  intros Hloop Ho Hw.
  split; [unfold w'; apply finalize_db; assumption|].
  assert (Hcases : e = LookupError \/ e = IOError
                   \/ (e <> LookupError /\ e <> IOError)).
  { destruct e; auto; right; right; split; discriminate. }
  destruct Hcases as [He | [He | [H1 H2]]].
  - destruct (finalize_write_fails env raw w Hgen Hlearn Hfresh Hloop e Ho Hw
                (or_introl He)) as (w1 & msg & Hrun & _ & Hwr & Htr & Hlog).
    assert (Hw1 : w' = w1) by (unfold w'; rewrite Hrun; reflexivity).
    rewrite Hw1. repeat split; auto.
    + intros _. exists msg. split; assumption.
    + intros Hn. contradiction.
  - destruct (finalize_write_fails env raw w Hgen Hlearn Hfresh Hloop e Ho Hw
                (or_intror He)) as (w1 & msg & Hrun & _ & Hwr & Htr & Hlog).
    assert (Hw1 : w' = w1) by (unfold w'; rewrite Hrun; reflexivity).
    rewrite Hw1. repeat split; auto.
    + intros _. exists msg. split; assumption.
    + intros _ Hn. contradiction.
  - destruct (finalize_write_raises env raw w Hgen Hlearn Hfresh Hloop e Ho Hw H1 H2)
      as (w1 & Hrun & _ & Hwr & Htr).
    assert (Hw1 : w' = w1) by (unfold w'; rewrite Hrun; reflexivity).
    rewrite Hw1. repeat split; auto.
    intros [He | He]; contradiction.
Qed.

End Run.

(** X17, witness: the sample table, both bounds off. *)
Lemma X17_witness :
  let raw := config_bounds (-1) (-1) "utf-8" in
  let w := world_with aged_rows in
  let w' := world_of (on_process_end env_ok raw w) in
  db w' = db w
  /\ exists doc,
       on_process_end env_ok raw w = Return w'
       /\ trace w' = trace w ++ [Opened feed; Wrote feed "utf-8" doc]
       /\ rss_items doc = map make_item (list_newest_first feed (db w)).
Proof.
  intros raw w w'.
  destruct (X17_unlimited_keeps_everything env_ok raw w eq_refl eq_refl eq_refl
              eq_refl eq_refl) as [Hdb Hdoc].
  split; [exact Hdb | exact (Hdoc eq_refl eq_refl)].
Defined.

(** X18, witness: the sample table, [items] = -2 and no age bound. *)
Lemma X18_witness :
  let raw := config_bounds (-1) (-2) "utf-8" in
  let w := world_with aged_rows in
  let w' := world_of (on_process_end env_ok raw w) in
  filter_file feed (db w') = []
  /\ exists doc,
       on_process_end env_ok raw w = Return w'
       /\ trace w' = trace w ++ [Opened feed; Wrote feed "utf-8" doc]
       /\ rss_items doc = [].
Proof.
  intros raw w w'.
  assert (Hi : items (get_config raw) < -1) by reflexivity.
  assert (Hloop : loop_completes env_ok (get_config raw)
                    (list_newest_first (config_file (get_config raw)) (db w)))
    by (left; reflexivity).
  destruct (X18_items_below_minus_one env_ok raw w eq_refl eq_refl eq_refl Hi Hloop)
    as [Hdb Hdoc].
  split; [exact Hdb | exact (Hdoc eq_refl eq_refl)].
Defined.

(** X19, witness: the sample table, [items] = 1 and no age bound: two rows
    are left. *)
Lemma X19_witness :
  let raw := config_bounds (-1) 1 "utf-8" in
  let w := world_with aged_rows in
  let w' := world_of (on_process_end env_ok raw w) in
  list_newest_first feed (db w') = firstn 2 (list_newest_first feed (db w))
  /\ exists doc,
       on_process_end env_ok raw w = Return w'
       /\ trace w' = trace w ++ [Opened feed; Wrote feed "utf-8" doc]
       /\ rss_items doc = map make_item (firstn 2 (list_newest_first feed (db w))).
Proof.
  intros raw w w'.
  assert (Hi : 0 <= items (get_config raw)) by discriminate.
  assert (Hnd : NoDup (map id (db w))).
  { repeat constructor; simpl; intuition discriminate. }
  destruct (X19_items_bound_keeps_first_rows env_ok raw w eq_refl eq_refl eq_refl
              eq_refl Hi Hnd) as [Hdb Hdoc].
  split; [exact Hdb | exact (Hdoc eq_refl eq_refl)].
Defined.

(** X21, witness: the encoding is unknown. *)
Lemma X21_witness :
  let raw := config_bounds 7 (-1) "bogus" in
  let w := world_with aged_rows in
  let w' := world_of (on_process_end env_unknown_encoding raw w) in
  written w' = written w
  /\ trace w' = trace w ++ [Opened feed]
  /\ exists msg, on_process_end env_unknown_encoding raw w = Return w'
                 /\ last (log w') (LogDebug EmptyString) = LogCritical msg.
Proof.
  intros raw w w'.
  assert (Hloop : loop_completes env_unknown_encoding (get_config raw)
                    (list_newest_first (config_file (get_config raw)) (db w)))
    by (right; intros k _; discriminate).
  destruct (X21_write_errors env_unknown_encoding raw w eq_refl eq_refl eq_refl
              LookupError Hloop eq_refl eq_refl) as (_ & Hwr & Htr & Hret & _).
  split; [exact Hwr|]. split; [exact Htr|]. apply Hret. left. reflexivity.
Defined.

(** ** A second run *)

Lemma dropped_of_kept env config c k k' l :
  (forall n, today env n = today env 0) ->
  dropped_rows env config c k' (kept_rows env config c k l) = [].
Proof.
  intros Hclock. revert c k k'.
  induction l as [|r l IH]; intros c k k'; cbn [kept_rows]; auto.
  destruct (keep_row config c (today env k) r) as [[|]|] eqn:Hk.
  - cbn [dropped_rows]. rewrite (Hclock k'), <- (Hclock k), Hk. apply IH.
  - apply IH.
  - reflexivity.
Qed.

(** Under a clock that stands still the age test can be made at every row or
    at none. *)
Lemma still_clock_tests env config :
  (forall n, today env n = today env 0) ->
  (forall l, loop_completes env config l)
  \/ (days config <> -1 /\ minus_days (today env 0) (days config) = None).
Proof.
  intros Hclock.
  destruct (Z.eq_dec (days config) (-1)) as [Hd|Hd].
  - left. intros l. left. exact Hd.
  - destruct (minus_days (today env 0) (days config)) eqn:E.
    + left. intros l. right. intros k _. rewrite Hclock, E. discriminate.
    + right. split; [exact Hd | reflexivity].
Qed.

(** When the age test cannot be made, a call leaves the table as it is: with
    no row the loop has nothing to do, with a row it raises before the
    commit. *)
Lemma overflow_keeps_table env raw w :
  days (get_config raw) <> -1 ->
  minus_days (today env 0) (days (get_config raw)) = None ->
  db (world_of (on_process_end env raw w)) = db w.
Proof.
  intros Hd Hnone. apply Z.eqb_neq in Hd.
  unfold on_process_end.
  destruct (rss2gen env); cbn [negb]; [|reflexivity].
  destruct (opt_learn env); [reflexivity|]. cbv zeta.
  destruct (is_written w _); [reflexivity|].
  destruct (order_by_published_desc _) as [|r l].
  - cbn [make_items]. destruct (open_w env _); [reflexivity|].
    destruct (write_xml env _ _ _) as [[]|]; reflexivity.
  - cbn [make_items]. unfold loop_step, keep_row. cbn [lp_reads].
    rewrite Hd, Hnone. reflexivity.
Qed.

(** X20.  Eviction is stable under a clock that stands still: after a call
    of [on_process_end] in a new process, on a table with distinct keys, a
    second such call with the same config deletes nothing more. *)
Theorem X20_second_run_deletes_nothing (env : Env) (raw : RawConfig) (w : World) :
  rss2gen env = true ->
  opt_learn env = false ->
  NoDup (map id (db w)) ->
  (forall n, today env n = today env 0) ->
  let w1 := world_of (on_process_end env raw (new_process w)) in
  db (world_of (on_process_end env raw (new_process w1))) = db w1.
Proof.
  intros Hgen Hlearn Hnd Hclock w1.
  destruct (still_clock_tests env (get_config raw) Hclock) as [Hloop | [Hd Hnone]].
  - assert (Hdb1 : db w1 = store_after env (get_config raw) (new_process w))
      by (apply finalize_db; auto).
    rewrite finalize_db by auto.
    unfold store_after at 1. cbn [db new_process].
    rewrite Hdb1,
      <- (kept_rows_survivors env (get_config raw) (new_process w) (Hloop _) Hnd).
    rewrite dropped_of_kept by exact Hclock.
    apply delete_all_nil.
  - apply (overflow_keeps_table env raw (new_process w1) Hd Hnone).
Qed.

(** X20, witness: the sample table under an age bound of 7 days. *)
Lemma X20_witness :
  let raw := config_bounds 7 (-1) "utf-8" in
  let w1 := world_of (on_process_end env_ok raw (new_process (world_with aged_rows))) in
  db (world_of (on_process_end env_ok raw (new_process w1))) = db w1.
Proof.
  apply (X20_second_run_deletes_nothing env_ok (config_bounds 7 (-1) "utf-8")
           (world_with aged_rows) eq_refl eq_refl).
  - repeat constructor; simpl; intuition discriminate.
  - reflexivity.
Defined.

(** ** Marks and medium *)

(** X22.  A call of [on_process_end] never removes a mark and marks no
    destination but its own; on the medium it does nothing but append at most
    two events, each about the expanded path of its own file. *)
Theorem X22_marks_and_medium (env : Env) (raw : RawConfig) (w : World) (g : string) :
  let f := config_file (get_config raw) in
  let w' := world_of (on_process_end env raw w) in
  (is_written w g = true -> is_written w' g = true)
  /\ (g <> f -> is_written w' g = is_written w g)
  /\ exists evs,
       trace w' = trace w ++ evs
       /\ (List.length evs <= 2)%nat
       /\ Forall (fun ev => event_path ev = expanduser env f) evs.
Proof.
  intros f w'.
  assert (Hcases :
    (written w' = written w /\ trace w' = trace w)
    \/ (written w' = written w
        /\ trace w' = trace w ++ [Opened (expanduser env f)])
    \/ exists doc,
         written w' = f :: written w
         /\ trace w' = trace w ++ [Opened (expanduser env f);
                                   Wrote (expanduser env f)
                                         (encoding (get_config raw)) doc]).
  { unfold w', on_process_end. fold f.
    destruct (rss2gen env); cbn [negb]; [|left; split; reflexivity].
    destruct (opt_learn env); [left; split; reflexivity|]. cbv zeta. fold f.
    destruct (is_written w f); [left; split; reflexivity|].
    destruct (make_items env _ _ _) as [st|e st]; [|left; split; reflexivity].
    destruct (open_w env (expanduser env f)); [left; split; reflexivity|].
    destruct (write_xml env (expanduser env f) _ _) as [[]|];
      cbn [world_of written trace mark_written add_log add_event];
      try (right; left; split; reflexivity).
    right. right. eexists. split; [reflexivity|].
    rewrite <- app_assoc. reflexivity. }
  split; [|split].
  - intros Hg. destruct Hcases as [[Hw _] | [[Hw _] | (doc & Hw & _)]];
      unfold is_written in *; rewrite Hw; auto.
    simpl. rewrite Hg. apply orb_true_r.
  - intros Hg. destruct Hcases as [[Hw _] | [[Hw _] | (doc & Hw & _)]];
      unfold is_written; rewrite Hw; auto.
    simpl. destruct (String.eqb_spec g f); [contradiction | reflexivity].
  - destruct Hcases as [[_ Ht] | [[_ Ht] | (doc & _ & Ht)]].
    + exists []. rewrite app_nil_r. repeat split; auto.
    + eexists. split; [exact Ht|]. split; [simpl; lia|].
      repeat constructor.
    + eexists. split; [exact Ht|]. split; [simpl; lia|].
      repeat constructor.
Qed.

(** X11, witness: the default preference list and an entry that has only a
    [url] field. *)
Lemma X11_witness :
  select_link episode (config_link (get_config (ConfigText feed))) <> None.
Proof.
  apply (proj2 (proj2 (proj2
           (X11_link_falls_back_to_url (ConfigText feed) episode)))).
  discriminate.
Defined.

(** X12, witness: a dict config that prefers [imdb_url]. *)
Lemma X12_witness :
  config_link (get_config (stored_config (config_links ["imdb_url"%string])))
  = config_link (get_config (config_links ["imdb_url"%string])) ++ ["url"%string].
Proof.
  exact (proj1 (X12_get_config_in_place env_ok (config_links ["imdb_url"%string])
                  [episode] empty_world episode) _ eq_refl).
Defined.

(** X14, witness: saving an entry for [feed.rss] leaves the rows of
    [other.rss] alone. *)
Lemma X14_witness :
  filter_file "other.rss"
    (db (world_of (on_task_exit env_ok (ConfigText feed) [episode]
                     (world_with aged_rows))))
  = filter_file "other.rss" (db (world_with aged_rows)).
Proof.
  apply (proj2 (proj2 (X14_on_task_exit_frame env_ok (ConfigText feed) [episode]
                         (world_with aged_rows) "other.rss"))).
  - repeat constructor; simpl; intuition discriminate.
  - discriminate.
Defined.

(** X16, witness: finalizing [feed.rss] leaves the rows of [other.rss]
    alone. *)
Lemma X16_witness :
  filter_file "other.rss"
    (db (world_of (on_process_end env_ok (ConfigText feed) (world_with aged_rows))))
  = filter_file "other.rss" (db (world_with aged_rows)).
Proof.
  apply (proj2 (X16_other_destinations_untouched env_ok (ConfigText feed)
                  (world_with aged_rows) "other.rss")).
  - repeat constructor; simpl; intuition discriminate.
  - discriminate.
Defined.

(** X22, witness: [other.rss] is marked before [feed.rss] is finalized, and
    is still marked afterwards. *)
Lemma X22_witness :
  is_written
    (world_of (on_process_end env_ok (ConfigText feed)
                 (mark_written (world_with aged_rows) "other.rss")))
    "other.rss" = true.
Proof.
  apply (proj1 (X22_marks_and_medium env_ok (ConfigText feed)
                  (mark_written (world_with aged_rows) "other.rss") "other.rss")).
  reflexivity.
Defined.

End RssExtra.
